(** * Power BI report migration (main.py): model and properties

    The program is a one-shot batch: it authenticates against two tenants,
    lists the reports of the workspace of one name in both, and copies every
    source report that is neither ignored nor already present (by name) in the
    destination: export, archive to object storage, import.

    The embedding follows main.py function by function.  Calls to the outside
    (secret manager, HTTP, object storage, stdout) are recorded as events; the
    answers come from a [World], a record of oracles that see the events so
    far.  Python exceptions are the [Raise] case of [res]. *)

From Stdlib Require Import ZArith String Ascii List Bool Lia.
From Stdlib Require Strings.Byte.
From stdpp Require Import base gmap strings list fin_maps.

Import ListNotations.
Local Open Scope string_scope.
Local Open Scope list_scope.

(** ** Python values the program handles *)

(** [bytes] objects: [response.content], the exported report. *)
Definition bytes := list Byte.byte.

(** Truthiness of a bytes object, as in [if report_content:]. *)
Definition truthy (b : bytes) : bool :=
  match b with
  | [] => false
  | _ :: _ => true
  end.

(** A value that may be [None] (an unset environment variable, the result of
    [get_workspace]) rendered inside an f-string. *)
Definition fstr (v : option string) : string :=
  match v with
  | Some s => s
  | None => "None"
  end.

(** [sub in s] on two [str] objects: [sub] occurs in [s] as a contiguous
    run of characters. *)
Fixpoint str_in (sub s : string) : bool :=
  String.prefix sub s ||
  match s with
  | EmptyString => false
  | String _ s' => str_in sub s'
  end.

(** ** Data model *)

(** An entry of the groups listing, with the two keys the program reads,
    [name] and [id]; the service sends both, as strings. *)
Record Workspace := mkWorkspace { ws_id : string; ws_name : string }.

(** The dictionaries [get_reports] builds from a listing entry, with the
    keys [id] and [name]; the service sends both, as strings. *)
Record Report := mkReport { id : string; name : string }.

(** The five credential fields read by [get_access_token]. *)
Record TenantInfo := mkTenantInfo {
  tenant_id : string;
  client_id : string;
  client_secret : string;
  username : string;
  password : string
}.

(** The decoded secret blob: [secrets.get("tenant_vgm_info", {})] and
    [secrets.get("tenant_ft_info", {})]. *)
Record Secrets := mkSecrets {
  tenant_vgm_info : TenantInfo;
  tenant_ft_info : TenantInfo
}.

(** The decoded JSON body of an import reply, kept as the text [print]
    shows for it. *)
Definition descriptor := string.

(** A [requests] response as it arrives: the status code and the raw body.
    What the program reads out of the body ([response.json()],
    [response.content.decode()]) is computed from it by the decoders of the
    [World] below, and may raise. *)
Record Response := mkResponse {
  status_code : Z;
  content : bytes
}.

(** The process environment, read with [os.getenv] ([None] when unset). *)
Record Env := mkEnv {
  WORKSPACE_NAME : option string;
  IGNORE_REPORTS : option string;
  PROJECT_ID : option string;
  BUCKET_NAME : option string;
  BUCKET_DESTINATION_DIRECTORY : option string
}.

(** ** Exceptions and results *)

Inductive exn :=
| HTTPError (status : Z)          (* response.raise_for_status() *)
| TypeError (what : string)       (* len(None), iterating None, x in None *)
| DecodeError (what : string)     (* JSONDecodeError, UnicodeDecodeError *)
| ServiceError (what : string).   (* raised inside an external client *)

Inductive res (A : Type) :=
| Ok (a : A)
| Raise (e : exn).
Arguments Ok {A} _.
Arguments Raise {A} _.

(** ** Events: what the program does to the outside *)

(** One constructor per [print] of main.py. *)
Inductive msg :=
| MsgTokenFailed                                   (* line 50 *)
| MsgStatusCode (status : Z)                       (* line 51 *)
| MsgResponseContent (body : string)               (* line 52 *)
| MsgListError (status : Z) (workspace : string)   (* lines 89-91 *)
| MsgImportBody (body : descriptor)                (* line 113 *)
| MsgUploaded (report_name blob : string)          (* line 127 *)
| MsgSourceCount (workspace : string) (n : nat)    (* lines 141-143 *)
| MsgDestCount (workspace : string) (n : nat)      (* lines 152-154 *)
| MsgAlreadyExists (report_name : string)          (* lines 161-163 *)
| MsgStarted (report_name : string)                (* line 167 *)
| MsgReportId (report_id : string)                 (* line 168 *)
| MsgSuccessful (import_response : option descriptor) (* lines 178-181 *)
| MsgFailed (report_name : string)                 (* line 184 *)
| MsgTook.                              (* line 188; the clock is not modelled *)

Inductive event :=
| EvSecret (resource : string)
| EvToken (tenant : TenantInfo)
| EvGroups (token : string)
| EvReports (token workspace : string)
| EvExport (token group report_id : string)
| EvImport (token group report_name : string) (report_content : bytes)
| EvUpload (bucket : option string) (blob : string) (report_content : bytes)
| EvPrint (m : msg).

(** The outside world.  Every oracle of a service receives the events that
    happened before the call, so that answers may change during a run.

    [access_secret_version] answers with the payload as line 22 decodes it;
    a payload that is not UTF-8 is one of its [Raise] answers.

    The decoders stand for the library code that reads a body: they are
    functions of the bytes alone and answer [Raise] when the body does not
    decode or does not hold what the caller reads from it.
    - [decode]: [response.content.decode()], line 52;
    - [json_access_token]: [response.json().get("access_token")], line 55,
      as the text the Authorization header of the later calls formats it to
      (the token is used nowhere else);
    - [json_groups]: the entries of [response.json()["value"]], line 67;
    - [json_reports]: the entries of [response.json().get("value")],
      line 85;
    - [json_import]: [response.json()], lines 113 and 115. *)
Record World := mkWorld {
  access_secret_version : list event -> string -> res string;
  json_loads : string -> res Secrets;
  decode : bytes -> res string;
  json_access_token : bytes -> res string;
  json_groups : bytes -> res (list Workspace);
  json_reports : bytes -> res (list Report);
  json_import : bytes -> res descriptor;
  post_token : list event -> TenantInfo -> res Response;
  get_groups : list event -> string -> res Response;
  get_reports_listing : list event -> string -> string -> res Response;
  get_export : list event -> string -> string -> string -> res Response;
  post_import :
    list event -> string -> string -> string -> bytes -> res Response;
  upload_from_string :
    list event -> option string -> string -> bytes -> res unit
}.

(** ** The monad of the program

    A computation reads the history and returns a result with the events it
    added.  An exception stops the computation; what was emitted before it
    stays in the trace. *)
Definition M (A : Type) := list event -> res A * list event.

Definition ret {A} (a : A) : M A := fun _ => (Ok a, []).

Definition raise {A} (e : exn) : M A := fun _ => (Raise e, []).

Definition bind {A B} (m : M A) (f : A -> M B) : M B :=
  fun h =>
    match m h with
    | (Ok a, t1) =>
        match f a (h ++ t1) with
        | (r, t2) => (r, t1 ++ t2)
        end
    | (Raise e, t1) => (Raise e, t1)
    end.

(** A call to the outside: the event is recorded, the oracle answers from
    the history before it. *)
Definition perform {A} (ev : event) (oracle : list event -> res A) : M A :=
  fun h => (oracle h, [ev]).

Definition print (m : msg) : M unit := fun _ => (Ok tt, [EvPrint m]).

(** A call of library code that touches nothing outside: it returns or
    raises, and leaves no event. *)
Definition lift {A} (r : res A) : M A := fun _ => (r, []).

Declare Scope py_scope.
Delimit Scope py_scope with py.
Notation "x <- c1 ;; c2" := (bind c1 (fun x => c2))
  (at level 100, c1 at next level, right associativity) : py_scope.
Notation "c1 ;;; c2" := (bind c1 (fun _ => c2))
  (at level 100, right associativity) : py_scope.
Local Open Scope py_scope.

(** [response.raise_for_status()]: client and server errors raise. *)
Definition is_error_status (s : Z) : bool := (400 <=? s)%Z && (s <? 600)%Z.

Definition raise_for_status (r : Response) : M unit :=
  if is_error_status (status_code r) then raise (HTTPError (status_code r))
  else ret tt.

(** ** The functions of main.py *)

Section Program.

Variable w : World.
Variable env : Env.

(** [get_secret], lines 18-23. *)
Definition get_secret (secret_name : string) : M string :=
  let resource :=
    "projects/" +:+ fstr (PROJECT_ID env) +:+ "/secrets/" +:+ secret_name
      +:+ "/versions/latest" in
  perform (EvSecret resource) (fun h => access_secret_version w h resource).

(** [get_access_token], lines 27-55.  The arguments of the [print] of line
    52 are evaluated first: when the body does not decode as text, the
    third line is not printed. *)
Definition get_access_token (tenant_info : TenantInfo) : M string :=
  response <- perform (EvToken tenant_info)
                (fun h => post_token w h tenant_info);;
  (if bool_decide (status_code response = 200%Z) then ret tt
   else
     print MsgTokenFailed;;;
     print (MsgStatusCode (status_code response));;;
     body <- lift (decode w (content response));;
     print (MsgResponseContent body));;;
  raise_for_status response;;;
  lift (json_access_token w (content response)).

(** [get_workspace], lines 59-71.  The function falls off its end, that
    is returns [None], when the filtered list is empty. *)
Definition get_workspace (access_token : string)
    (workspace_name : option string) : M (option string) :=
  response <- perform (EvGroups access_token)
                (fun h => get_groups w h access_token);;
  raise_for_status response;;;
  value <- lift (json_groups w (content response));;
  let ws :=
    List.filter
      (fun result => bool_decide (Some (ws_name result) = workspace_name))
      value in
  match ws with
  | first :: _ => ret (Some (ws_id first))
  | [] => ret None
  end.

(** [get_reports], lines 75-91.  The body is decoded only when the status
    is 200.  The [else] branch prints and falls off the end of the
    function: the caller receives [None]. *)
Definition get_reports (access_token : string) (workspace_id : option string)
    : M (option (list Report)) :=
  response <- perform (EvReports access_token (fstr workspace_id))
                (fun h =>
                   get_reports_listing w h access_token (fstr workspace_id));;
  if bool_decide (status_code response = 200%Z) then
    value <- lift (json_reports w (content response));;
    ret (Some (List.map (fun result => mkReport (id result) (name result))
                 value))
  else
    print (MsgListError (status_code response) (fstr workspace_id));;;
    ret None.

(** [export_report], lines 95-100. *)
Definition export_report (access_token : string) (group_id : option string)
    (report_id : string) : M bytes :=
  response <- perform (EvExport access_token (fstr group_id) report_id)
                (fun h =>
                   get_export w h access_token (fstr group_id) report_id);;
  raise_for_status response;;;
  ret (content response).

(** [import_report], lines 104-115.  Both branches decode the body: line
    113 before it prints, line 115 before it returns. *)
Definition import_report (access_token : string) (group_id : option string)
    (report_name : string) (report_content : bytes) : M (option descriptor) :=
  response <-
    perform (EvImport access_token (fstr group_id) report_name report_content)
      (fun h =>
         post_import w h access_token (fstr group_id) report_name
           report_content);;
  if negb (bool_decide (status_code response = 202%Z)) then
    body <- lift (json_import w (content response));;
    print (MsgImportBody body);;;
    ret None
  else
    body <- lift (json_import w (content response));;
    ret (Some body).

(** The object path of line 124. *)
Definition destination_blob_name (report_name : string) : string :=
  fstr (BUCKET_DESTINATION_DIRECTORY env) +:+ "/" +:+ report_name +:+ ".pbix".

(** [upload_report_to_gcs], lines 119-127. *)
Definition upload_report_to_gcs (report_content : bytes)
    (report_name : string) : M unit :=
  let bucket := BUCKET_NAME env in
  let blob := destination_blob_name report_name in
  perform (EvUpload bucket blob report_content)
    (fun h => upload_from_string w h bucket blob report_content);;;
  print (MsgUploaded report_name blob).

(** The dictionary comprehension of lines 149-151: a later report of the
    same name replaces an earlier one.  The dictionary is an object of its
    own: the appends to the list it was built from do not reach it. *)
Definition by_name (reports : list Report) : gmap string Report :=
  foldl (fun d report => <[name report := report]> d) ∅ reports.

Section Loop.

(** What the loop of [main] reads from the enclosing scope. *)
Variable token_vgm : string.
Variable source_workspace_id : option string.
Variable token_ft : string.
Variable target_workspace_id : option string.
Variable dst_reports_dict_by_name : gmap string Report.

(** The body of the [for] loop, lines 157-188, for one [report].  The list
    [dst_reports_dict] is the only variable the body updates; it is passed
    in and returned. *)
Definition migrate_report (report : Report) (dst_reports_dict : list Report)
    : M (list Report) :=
  let report_name := name report in
  match IGNORE_REPORTS env with
  | None => raise (TypeError "argument of type 'NoneType' is not iterable")
  | Some ignore_reports =>
      if negb (str_in report_name ignore_reports) then
        if bool_decide (is_Some (dst_reports_dict_by_name !! report_name)) then
          print (MsgAlreadyExists report_name);;;
          ret dst_reports_dict
        else
          print (MsgStarted (name report));;;
          print (MsgReportId (id report));;;
          report_content <-
            export_report token_vgm source_workspace_id (id report);;
          dst' <-
            (if truthy report_content then
               upload_report_to_gcs report_content report_name;;;
               import_response <-
                 import_report token_ft target_workspace_id (name report)
                   report_content;;
               print (MsgSuccessful import_response);;;
               ret (dst_reports_dict ++ [report])
             else
               print (MsgFailed (name report));;;
               ret dst_reports_dict);;
          print MsgTook;;;
          ret dst'
      else ret dst_reports_dict
  end.

(** The [for] loop of line 156, in catalog order. *)
Fixpoint migrate_reports (source_reports_dict dst_reports_dict : list Report)
    : M (list Report) :=
  match source_reports_dict with
  | [] => ret dst_reports_dict
  | report :: rest =>
      dst' <- migrate_report report dst_reports_dict;;
      migrate_reports rest dst'
  end.

End Loop.

(** [len(x)] where [x] may be [None]. *)
Definition py_len {A} (x : option (list A)) : M nat :=
  match x with
  | Some l => ret (length l)
  | None => raise (TypeError "object of type 'NoneType' has no len()")
  end.

(** [for ... in x] where [x] may be [None]. *)
Definition py_iter {A} (x : option (list A)) : M (list A) :=
  match x with
  | Some l => ret l
  | None => raise (TypeError "'NoneType' object is not iterable")
  end.

(** [main], lines 131-188.  The function returns nothing; the model returns
    the final [dst_reports_dict] so that the appends of line 182 can be
    observed. *)
Definition main : M (list Report) :=
  secret_string <- get_secret "vgm-secrets-powerbi-migration-tenant-creds";;
  secrets <- lift (json_loads w secret_string);;
  token_vgm <- get_access_token (tenant_vgm_info secrets);;
  source_workspace_id <- get_workspace token_vgm (WORKSPACE_NAME env);;
  source_reports_dict <- get_reports token_vgm source_workspace_id;;
  n_src <- py_len source_reports_dict;;
  print (MsgSourceCount (fstr (WORKSPACE_NAME env)) n_src);;;
  token_ft <- get_access_token (tenant_ft_info secrets);;
  target_workspace_id <- get_workspace token_ft (WORKSPACE_NAME env);;
  dst_reports_dict <- get_reports token_ft target_workspace_id;;
  dst_list <- py_iter dst_reports_dict;;
  let dst_reports_dict_by_name := by_name dst_list in
  n_dst <- py_len dst_reports_dict;;
  print (MsgDestCount (fstr (WORKSPACE_NAME env)) n_dst);;;
  src_list <- py_iter source_reports_dict;;
  migrate_reports token_vgm source_workspace_id token_ft target_workspace_id
    dst_reports_dict_by_name src_list dst_list.

End Program.

(** ** Reading runs *)

(** [after evs x]: the run [x], started once [evs] had been emitted. *)
Definition after {A} (evs : list event) (x : res A * list event)
    : res A * list event :=
  (fst x, evs ++ snd x).

(** The IGNORE_REPORTS text that lists [names] the way test_main.py
    writes it: in brackets, each name between double quotes, separated by a
    comma and a space. *)
Definition dquote : string := String "034"%char EmptyString.

Definition quoted (n : string) : string := dquote +:+ n +:+ dquote.

Fixpoint comma_separated (items : list string) : string :=
  match items with
  | [] => ""
  | [x] => x
  | x :: rest => x +:+ ", " +:+ comma_separated rest
  end.

Definition ignore_config (names : list string) : string :=
  "[" +:+ comma_separated (List.map quoted names) +:+ "]".

(** ** The events of one iteration

    The loop body emits, in this order: the two start lines, the export
    call, the archive call with its log line, the import call. *)
Section IterationEvents.

Variable env : Env.
Variable token_vgm : string.
Variable source_workspace_id : option string.
Variable token_ft : string.
Variable target_workspace_id : option string.

Definition ev_started (report : Report) : list event :=
  [EvPrint (MsgStarted (name report)); EvPrint (MsgReportId (id report))].

Definition ev_exported (report : Report) : list event :=
  ev_started report ++
  [EvExport token_vgm (fstr source_workspace_id) (id report)].

Definition ev_archived (report : Report) (c : bytes) : list event :=
  ev_exported report ++
  [EvUpload ((BUCKET_NAME env))
     (destination_blob_name env (name report)) c].

Definition ev_import_called (report : Report) (c : bytes) : list event :=
  ev_archived report c ++
  [EvPrint (MsgUploaded (name report)
              (destination_blob_name env (name report)));
   EvImport token_ft (fstr target_workspace_id) (name report) c].

End IterationEvents.

Definition is_import (e : event) : bool :=
  match e with
  | EvImport _ _ _ _ => true
  | _ => false
  end.

(** ** Fixtures

    Concrete worlds in the style of test_main.py: every outside call is
    answered from a small table.  The two tenants are told apart by their
    tenant id, which selects the token, the workspace id and the catalog.
    The bodies are JSON texts, and the decoders of a fixture read back
    exactly the bodies that fixture sends. *)

Definition fake_tenant (tenant : string) : TenantInfo :=
  mkTenantInfo tenant "fake_client_id" "fake_client_secret" "fake_username"
    "fake_password".

Definition fake_secrets : Secrets :=
  mkSecrets (fake_tenant "vgm") (fake_tenant "ft").

Definition fake_report_content : bytes :=
  String.list_byte_of_string "fake_report_content".

Definition fake_import_descriptor : descriptor :=
  "{'import_id': 'fake_import_id'}".

Definition fake_error_descriptor : descriptor :=
  "{'error': 'bad request'}".

(** JSON texts: an object of string members, and the listing object
    [{"value": [...]}] of the service. *)
Definition json_object (members : list (string * string)) : string :=
  "{" +:+
  comma_separated
    (List.map (fun m => quoted (fst m) +:+ ": " +:+ quoted (snd m)) members)
  +:+ "}".

Definition json_value (entries : list string) : string :=
  "{" +:+ quoted "value" +:+ ": [" +:+ comma_separated entries +:+ "]}".

Definition token_body (token : string) : bytes :=
  String.list_byte_of_string (json_object [("access_token", token)]).

Definition groups_body (groups : list Workspace) : bytes :=
  String.list_byte_of_string
    (json_value
       (List.map
          (fun g => json_object [("id", ws_id g); ("name", ws_name g)])
          groups)).

Definition reports_body (reports : list Report) : bytes :=
  String.list_byte_of_string
    (json_value
       (List.map (fun r => json_object [("id", id r); ("name", name r)])
          reports)).

Definition import_accepted : Response :=
  mkResponse 202%Z
    (String.list_byte_of_string
       (json_object [("import_id", "fake_import_id")])).

(** A rejection that explains itself in JSON, and one without a body. *)
Definition import_rejected : Response :=
  mkResponse 400%Z
    (String.list_byte_of_string (json_object [("error", "bad request")])).

Definition import_rejected_without_body : Response := mkResponse 400%Z [].

(** A decoder given by the bodies it knows; any other body does not
    decode. *)
Definition same_bytes (a b : bytes) : bool :=
  String.eqb (String.string_of_list_byte a) (String.string_of_list_byte b).

Fixpoint decode_table {A} (table : list (bytes * A)) (body : bytes) : res A :=
  match table with
  | [] => Raise (DecodeError "Expecting value")
  | (known, value) :: rest =>
      if same_bytes known body then Ok value else decode_table rest body
  end.

(** Text decoding of the fixtures: ASCII text decodes to itself; a byte
    above 127 is taken as undecodable. *)
Definition decode_ascii (body : bytes) : res string :=
  if forallb (fun b => (Byte.to_N b <? 128)%N) body
  then Ok (String.string_of_list_byte body)
  else Raise (DecodeError "invalid start byte").

Definition target_workspaces : list Workspace :=
  [mkWorkspace "target_workspace_id" "fake_workspace"].

Record Fixture := mkFixture {
  fx_groups : list Workspace;              (* source tenant's workspaces *)
  fx_source_status : Z;                    (* status of the source listing *)
  fx_source : list Report;                 (* source catalog *)
  fx_destination_status : Z;               (* status of the other listing *)
  fx_destination : list Report;            (* destination catalog *)
  fx_export : string -> Response;          (* export reply, by report id *)
  fx_import : Response                     (* reply to every import *)
}.

Definition fixture_world (fx : Fixture) : World :=
  {| access_secret_version := fun _ _ => Ok "fake_secret_blob";
     json_loads := fun _ => Ok fake_secrets;
     decode := decode_ascii;
     json_access_token :=
       decode_table
         [(token_body "fake_token_vgm", "fake_token_vgm");
          (token_body "fake_token_ft", "fake_token_ft")];
     json_groups :=
       decode_table
         [(groups_body (fx_groups fx), fx_groups fx);
          (groups_body target_workspaces, target_workspaces)];
     json_reports :=
       decode_table
         [(reports_body (fx_source fx), fx_source fx);
          (reports_body (fx_destination fx), fx_destination fx)];
     json_import :=
       decode_table
         [(content import_accepted, fake_import_descriptor);
          (content import_rejected, fake_error_descriptor)];
     post_token := fun _ tenant =>
       Ok (mkResponse 200%Z
             (token_body ("fake_token_" +:+ tenant_id tenant)));
     get_groups := fun _ token =>
       Ok (mkResponse 200%Z
             (if String.eqb token "fake_token_vgm"
              then groups_body (fx_groups fx)
              else groups_body target_workspaces));
     get_reports_listing := fun _ token _ =>
       Ok (if String.eqb token "fake_token_vgm"
           then mkResponse (fx_source_status fx)
                  (reports_body (fx_source fx))
           else mkResponse (fx_destination_status fx)
                  (reports_body (fx_destination fx)));
     get_export := fun _ _ _ report_id => Ok (fx_export fx report_id);
     post_import := fun _ _ _ _ _ => Ok (fx_import fx);
     upload_from_string := fun _ _ _ _ => Ok tt |}.

(** The environment patched in by [test_main]. *)
Definition test_env : Env :=
  mkEnv (Some "fake_workspace")
    (Some (ignore_config ["ignore_report_1"; "ignore_report_2"]))
    (Some "fake_project_id") (Some "fake_bucket") (Some "fake_directory").

Definition one_workspace : list Workspace :=
  [mkWorkspace "source_workspace_id" "fake_workspace"].

Definition export_ok (_ : string) : Response :=
  mkResponse 200%Z fake_report_content.

(** Two reports of one name, nothing in the destination. *)
Definition fx_duplicate_names : Fixture :=
  mkFixture one_workspace 200%Z
    [mkReport "1" "Report 1"; mkReport "2" "Report 1"] 200%Z [] export_ok
    import_accepted.

(** The export of report 1 is answered with status 500. *)
Definition fx_export_error : Fixture :=
  mkFixture one_workspace 200%Z
    [mkReport "1" "Report 1"; mkReport "2" "Report 2"] 200%Z []
    (fun report_id =>
       if String.eqb report_id "1" then mkResponse 500%Z []
       else export_ok report_id)
    import_accepted.

(** The export of report 1 is answered with status 200 and no bytes. *)
Definition fx_export_empty : Fixture :=
  mkFixture one_workspace 200%Z
    [mkReport "1" "Report 1"; mkReport "2" "Report 2"] 200%Z []
    (fun report_id =>
       if String.eqb report_id "1" then mkResponse 200%Z []
       else export_ok report_id)
    import_accepted.

(** The source listing is answered with status 500. *)
Definition fx_source_listing_error : Fixture :=
  mkFixture one_workspace 500%Z [] 200%Z [] export_ok import_accepted.

(** The destination listing is answered with status 500. *)
Definition fx_destination_listing_error : Fixture :=
  mkFixture one_workspace 200%Z [mkReport "1" "Report 1"] 500%Z [] export_ok
    import_accepted.

(** Every import is answered with status 400 and a JSON body. *)
Definition fx_import_rejected : Fixture :=
  mkFixture one_workspace 200%Z
    [mkReport "1" "Report 1"; mkReport "2" "Report 2"] 200%Z [] export_ok
    import_rejected.

(** Every import is answered with status 400 and no body. *)
Definition fx_import_rejected_without_body : Fixture :=
  mkFixture one_workspace 200%Z
    [mkReport "1" "Report 1"; mkReport "2" "Report 2"] 200%Z [] export_ok
    import_rejected_without_body.

(** The source holds an ignored report, a report whose name is only a part
    of an ignored name, and a report the destination already has. *)
Definition fx_skips : Fixture :=
  mkFixture one_workspace 200%Z
    [mkReport "1" "ignore_report_1"; mkReport "2" "report_";
     mkReport "3" "Report 3"; mkReport "4" "Report 4"]
    200%Z [mkReport "30" "Report 3"] export_ok import_accepted.

(** Several workspaces of the requested name. *)
Definition fx_duplicate_workspaces : Fixture :=
  mkFixture
    [mkWorkspace "other_id" "other_workspace";
     mkWorkspace "first_id" "fake_workspace";
     mkWorkspace "second_id" "fake_workspace"]
    200%Z [] 200%Z [] export_ok import_accepted.

(** The source tenant has no workspace of the requested name. *)
Definition fx_missing_workspace : Fixture :=
  mkFixture [mkWorkspace "other_id" "other_workspace"] 200%Z
    [mkReport "1" "Report 1"] 200%Z [] export_ok import_accepted.

(** A computation that makes no import call, whatever the history. *)
Definition quiet {A} (m : M A) : Prop :=
  forall h, existsb is_import (snd (m h)) = false.

(** [archive_first w env h tr]: in the trace [tr], emitted after the
    history [h], every import call directly follows an export call, the
    store of the bytes that export returned under the object path of the
    imported name, and the log line of the store. *)
Definition archive_first (w : World) (env : Env) (h tr : list event) : Prop :=
  forall t1 t2 tok grp nm c,
    tr = t1 ++ EvImport tok grp nm c :: t2 ->
    exists t0 tok_src grp_src rid response,
      t1 = t0 ++
           [EvExport tok_src grp_src rid;
            EvUpload (BUCKET_NAME env) (destination_blob_name env nm) c;
            EvPrint (MsgUploaded nm (destination_blob_name env nm))] /\
      get_export w (h ++ t0) tok_src grp_src rid = Ok response /\
      content response = c /\
      upload_from_string w (h ++ t0 ++ [EvExport tok_src grp_src rid])
        (BUCKET_NAME env) (destination_blob_name env nm) c = Ok tt.

(** ** Worlds that differ from a given one in one service *)

Definition with_secret (answer : res string) (w : World) : World :=
  mkWorld (fun _ _ => answer) (json_loads w) (decode w) (json_access_token w)
    (json_groups w) (json_reports w) (json_import w) (post_token w)
    (get_groups w) (get_reports_listing w) (get_export w) (post_import w)
    (upload_from_string w).

Definition with_json_loads (answer : res Secrets) (w : World) : World :=
  mkWorld (access_secret_version w) (fun _ => answer) (decode w)
    (json_access_token w) (json_groups w) (json_reports w) (json_import w)
    (post_token w) (get_groups w) (get_reports_listing w) (get_export w)
    (post_import w) (upload_from_string w).

Definition with_token (answer : res Response) (w : World) : World :=
  mkWorld (access_secret_version w) (json_loads w) (decode w)
    (json_access_token w) (json_groups w) (json_reports w) (json_import w)
    (fun _ _ => answer) (get_groups w) (get_reports_listing w) (get_export w)
    (post_import w) (upload_from_string w).

Definition with_groups (answer : res Response) (w : World) : World :=
  mkWorld (access_secret_version w) (json_loads w) (decode w)
    (json_access_token w) (json_groups w) (json_reports w) (json_import w)
    (post_token w) (fun _ _ => answer) (get_reports_listing w) (get_export w)
    (post_import w) (upload_from_string w).

Definition with_store (answer : res unit) (w : World) : World :=
  mkWorld (access_secret_version w) (json_loads w) (decode w)
    (json_access_token w) (json_groups w) (json_reports w) (json_import w)
    (post_token w) (get_groups w) (get_reports_listing w) (get_export w)
    (post_import w) (fun _ _ _ _ => answer).

(** ** Reading traces *)

Definition is_export (e : event) : bool :=
  match e with
  | EvExport _ _ _ => true
  | _ => false
  end.

Definition is_upload (e : event) : bool :=
  match e with
  | EvUpload _ _ _ => true
  | _ => false
  end.

(** The display names of the import calls of a trace, in order. *)
Fixpoint imported_names (tr : list event) : list string :=
  match tr with
  | [] => []
  | EvImport _ _ report_name _ :: tr' => report_name :: imported_names tr'
  | _ :: tr' => imported_names tr'
  end.

(** [onto dst x]: the run [x] of the loop from the empty list, read as a
    run from the list [dst]. *)
Definition onto (dst : list Report) (x : res (list Report) * list event)
    : res (list Report) * list event :=
  (match fst x with
   | Ok added => Ok (dst ++ added)
   | Raise e => Raise e
   end, snd x).

(** ** The ways one iteration can end *)

Section Outcome.

Variable w : World.
Variable env : Env.
Variable token_vgm : string.
Variable source_workspace_id : option string.
Variable token_ft : string.
Variable target_workspace_id : option string.
Variable dst_reports_dict_by_name : gmap string Report.
Variable report : Report.
Variable h : list event.

(** Both guards of lines 158 and 160 let the report through. *)
Definition passes_guards : Prop :=
  exists ignore_reports,
    IGNORE_REPORTS env = Some ignore_reports /\
    str_in (name report) ignore_reports = false /\
    dst_reports_dict_by_name !! name report = None.

(** The answer to the export call of the iteration. *)
Definition export_reply : res Response :=
  get_export w (h ++ ev_started report) token_vgm (fstr source_workspace_id)
    (id report).

(** The answer of the store to the bytes [c]. *)
Definition store_reply (c : bytes) : res unit :=
  upload_from_string w
    (h ++ ev_exported token_vgm source_workspace_id report)
    (BUCKET_NAME env) (destination_blob_name env (name report)) c.

(** The answer to the import call for the bytes [c]. *)
Definition import_reply (c : bytes) : res Response :=
  post_import w
    (h ++ ev_archived env token_vgm source_workspace_id report c ++
     [EvPrint (MsgUploaded (name report)
                 (destination_blob_name env (name report)))])
    token_ft (fstr target_workspace_id) (name report) c.

(** [outcome r tr]: the iteration for [report] emits [tr] and ends as [r]:
    [Ok added] when it returns, having appended [added] to the list, or
    [Raise e]. *)
Inductive outcome : res (list Report) -> list event -> Prop :=
| out_unset :
    IGNORE_REPORTS env = None ->
    outcome (Raise (TypeError "argument of type 'NoneType' is not iterable"))
      []
| out_ignored ignore_reports :
    IGNORE_REPORTS env = Some ignore_reports ->
    str_in (name report) ignore_reports = true ->
    outcome (Ok []) []
| out_present ignore_reports :
    IGNORE_REPORTS env = Some ignore_reports ->
    str_in (name report) ignore_reports = false ->
    is_Some (dst_reports_dict_by_name !! name report) ->
    outcome (Ok []) [EvPrint (MsgAlreadyExists (name report))]
| out_export_raised e :
    passes_guards ->
    export_reply = Raise e ->
    outcome (Raise e) (ev_exported token_vgm source_workspace_id report)
| out_export_refused response :
    passes_guards ->
    export_reply = Ok response ->
    is_error_status (status_code response) = true ->
    outcome (Raise (HTTPError (status_code response)))
      (ev_exported token_vgm source_workspace_id report)
| out_export_empty response :
    passes_guards ->
    export_reply = Ok response ->
    is_error_status (status_code response) = false ->
    content response = [] ->
    outcome (Ok [])
      (ev_exported token_vgm source_workspace_id report ++
       [EvPrint (MsgFailed (name report)); EvPrint MsgTook])
| out_store_raised response e :
    passes_guards ->
    export_reply = Ok response ->
    is_error_status (status_code response) = false ->
    truthy (content response) = true ->
    store_reply (content response) = Raise e ->
    outcome (Raise e)
      (ev_archived env token_vgm source_workspace_id report
         (content response))
| out_import_raised response e :
    passes_guards ->
    export_reply = Ok response ->
    is_error_status (status_code response) = false ->
    truthy (content response) = true ->
    store_reply (content response) = Ok tt ->
    import_reply (content response) = Raise e ->
    outcome (Raise e)
      (ev_import_called env token_vgm source_workspace_id token_ft
         target_workspace_id report (content response))
| out_import_undecoded response iresp e :
    passes_guards ->
    export_reply = Ok response ->
    is_error_status (status_code response) = false ->
    truthy (content response) = true ->
    store_reply (content response) = Ok tt ->
    import_reply (content response) = Ok iresp ->
    json_import w (content iresp) = Raise e ->
    outcome (Raise e)
      (ev_import_called env token_vgm source_workspace_id token_ft
         target_workspace_id report (content response))
| out_imported response iresp body :
    passes_guards ->
    export_reply = Ok response ->
    is_error_status (status_code response) = false ->
    truthy (content response) = true ->
    store_reply (content response) = Ok tt ->
    import_reply (content response) = Ok iresp ->
    json_import w (content iresp) = Ok body ->
    outcome (Ok [report])
      (ev_import_called env token_vgm source_workspace_id token_ft
         target_workspace_id report (content response) ++
       (if bool_decide (status_code iresp = 202%Z) then []
        else [EvPrint (MsgImportBody body)]) ++
       [EvPrint (MsgSuccessful
                   (if bool_decide (status_code iresp = 202%Z)
                    then Some body else None));
        EvPrint MsgTook]).

End Outcome.

(** The environment of [test_main] without IGNORE_REPORTS. *)
Definition env_without_ignore : Env :=
  mkEnv (Some "fake_workspace") None (Some "fake_project_id")
    (Some "fake_bucket") (Some "fake_directory").

(** Replies used below: a refused token request with a text body, one
    whose body is not text, and a refused groups listing. *)
Definition token_refused : Response :=
  mkResponse 401%Z (String.list_byte_of_string "unauthorized").

Definition token_refused_binary : Response :=
  mkResponse 401%Z [Byte.xff; Byte.xfe].

Definition groups_refused : Response := mkResponse 403%Z [].

Definition storage_unavailable : exn := ServiceError "storage unavailable".

Definition secret_denied : exn := ServiceError "permission denied".

Definition secret_resource_of_test : string :=
  "projects/fake_project_id/secrets/vgm-secrets-powerbi-migration-tenant-creds/versions/latest".

(** Closes a goal whose hypothesis [H] places an import call in a trace that
    holds none. *)
Ltac no_import H :=
  exfalso;
  apply (f_equal (existsb is_import)) in H;
  rewrite existsb_app in H;
  unfold ev_archived, ev_exported, ev_started in H;
  simpl in H; rewrite ?orb_true_r in H; discriminate H.

(** ** The monad: equations *)

Section MonadFacts.

Context {A B : Type}.

Lemma bind_Ok (m : M A) (f : A -> M B) h a t :
  m h = (Ok a, t) -> bind m f h = after t (f a (h ++ t)).
Proof.
  intros Hm. unfold bind, after. rewrite Hm.
  destruct (f a (h ++ t)); reflexivity.
Qed.

Lemma bind_Raise (m : M A) (f : A -> M B) h e t :
  m h = (Raise e, t) -> bind m f h = (Raise e, t).
Proof. intros Hm. unfold bind. rewrite Hm. reflexivity. Qed.

Lemma after_nil (x : res A * list event) : after [] x = x.
Proof. destruct x; reflexivity. Qed.

Lemma after_after (t1 t2 : list event) (x : res A * list event) :
  after t1 (after t2 x) = after (t1 ++ t2) x.
Proof. unfold after; simpl. rewrite app_assoc. reflexivity. Qed.

End MonadFacts.

Lemma bind_ret_l {A B} (a : A) (f : A -> M B) h :
  bind (ret a) f h = f a h.
Proof.
  unfold bind, ret. rewrite app_nil_r. destruct (f a h); reflexivity.
Qed.

Lemma bind_print {B} (m : msg) (f : unit -> M B) h :
  bind (print m) f h = after [EvPrint m] (f tt (h ++ [EvPrint m])).
Proof. apply bind_Ok. reflexivity. Qed.

Lemma bind_perform {A B} (ev : event) (oracle : list event -> res A)
    (f : A -> M B) h :
  bind (perform ev oracle) f h =
  match oracle h with
  | Ok a => after [ev] (f a (h ++ [ev]))
  | Raise e => (Raise e, [ev])
  end.
Proof.
  destruct (oracle h) eqn:Ho.
  - apply bind_Ok. unfold perform. rewrite Ho. reflexivity.
  - apply bind_Raise. unfold perform. rewrite Ho. reflexivity.
Qed.

Lemma bind_assoc {A B C} (m : M A) (f : A -> M B) (g : B -> M C) h :
  bind (bind m f) g h = bind m (fun a => bind (f a) g) h.
Proof.
  unfold bind. destruct (m h) as [[a|e] t1]; [|reflexivity].
  destruct (f a (h ++ t1)) as [[b|e] t2]; [|reflexivity].
  rewrite <- app_assoc.
  destruct (g b (h ++ t1 ++ t2)) as [r t3].
  rewrite app_assoc. reflexivity.
Qed.

Lemma bind_ext {A B} (m : M A) (f g : A -> M B) h :
  (forall a h', f a h' = g a h') -> bind m f h = bind m g h.
Proof.
  intros Hfg. unfold bind. destruct (m h) as [[a|e] t]; [|reflexivity].
  rewrite Hfg. reflexivity.
Qed.

(** ** Substrings *)

Lemma append_cons (c : ascii) (s t : string) :
  String c s +:+ t = String c (s +:+ t).
Proof. reflexivity. Qed.

Lemma append_assoc (s t u : string) : (s +:+ t) +:+ u = s +:+ t +:+ u.
Proof.
  induction s as [|c s IH]; [reflexivity|].
  rewrite !append_cons, IH. reflexivity.
Qed.

Lemma prefix_spec (p s : string) :
  String.prefix p s = true <-> exists post, s = p +:+ post.
Proof.
  revert s. induction p as [|c p IH]; intros s.
  - destruct s; simpl; (split; [intros _; eexists; reflexivity | reflexivity]).
  - destruct s as [|d s]; simpl.
    + split; [discriminate | intros [post Hp]; discriminate].
    + destruct (Ascii.ascii_dec c d) as [->|Hne].
      * rewrite IH. split; intros [post Hp]; exists post.
        -- rewrite Hp. reflexivity.
        -- rewrite append_cons in Hp. congruence.
      * split; [discriminate|].
        intros [post Hp]. rewrite append_cons in Hp. congruence.
Qed.

Lemma str_in_spec (sub s : string) :
  str_in sub s = true <-> exists pre post, s = pre +:+ sub +:+ post.
Proof.
  induction s as [|c s IH]; cbn [str_in].
  - rewrite orb_false_r, prefix_spec. split.
    + intros [post Hp]. exists "", post. exact Hp.
    + intros [pre [post Hp]]. destruct pre; [|discriminate].
      exists post. exact Hp.
  - rewrite orb_true_iff, prefix_spec, IH. split.
    + intros [[post Hp]|[pre [post Hp]]].
      * exists "", post. exact Hp.
      * exists (String c pre), post. rewrite append_cons, Hp. reflexivity.
    + intros [pre [post Hp]]. destruct pre as [|d pre].
      * left. exists post. exact Hp.
      * right. exists pre, post. rewrite append_cons in Hp. congruence.
Qed.

Lemma filter_first_match {A} (p : A -> bool) (pre : list A) (x : A)
    (post : list A) :
  p x = true -> (forall y, y ∈ pre -> p y = false) ->
  List.filter p (pre ++ x :: post) = x :: List.filter p post.
Proof.
  intros Hx Hpre. induction pre as [|y pre IH]; simpl.
  - rewrite Hx. reflexivity.
  - rewrite (Hpre y) by (left). apply IH.
    intros z Hz. apply Hpre. right. exact Hz.
Qed.

Lemma filter_no_match {A} (p : A -> bool) (l : list A) :
  (forall y, y ∈ l -> p y = false) -> List.filter p l = [].
Proof.
  intros Hl. induction l as [|y l IH]; simpl; [reflexivity|].
  rewrite (Hl y) by left. apply IH. intros z Hz. apply Hl. right. exact Hz.
Qed.

Lemma bind_lift {A B} (r : res A) (f : A -> M B) h :
  bind (lift r) f h =
  match r with
  | Ok a => f a h
  | Raise e => (Raise e, [])
  end.
Proof.
  unfold bind, lift. destruct r as [a|e]; [|reflexivity].
  rewrite app_nil_r. destruct (f a h); reflexivity.
Qed.

Lemma get_workspace_run (w : World) token wn h :
  get_workspace w token wn h =
  match get_groups w h token with
  | Ok response =>
      if is_error_status (status_code response) then
        (Raise (HTTPError (status_code response)), [EvGroups token])
      else
        match json_groups w (content response) with
        | Ok value =>
            (Ok match List.filter
                        (fun result =>
                           bool_decide (Some (ws_name result) = wn))
                        value with
                | first :: _ => Some (ws_id first)
                | [] => None
                end, [EvGroups token])
        | Raise e => (Raise e, [EvGroups token])
        end
  | Raise e => (Raise e, [EvGroups token])
  end.
Proof.
  unfold get_workspace. rewrite bind_perform.
  destruct (get_groups w h token) as [response|e]; [|reflexivity].
  unfold raise_for_status.
  destruct (is_error_status (status_code response)); [reflexivity|].
  rewrite bind_ret_l, bind_lift.
  destruct (json_groups w (content response)) as [value|e]; [|reflexivity].
  destruct (List.filter _ value); reflexivity.
Qed.

(** ** The functions, as equations on runs *)

Section Runs.

Variable w : World.
Variable env : Env.

Lemma export_report_run token group rid h :
  export_report w token group rid h =
  match get_export w h token (fstr group) rid with
  | Ok response =>
      if is_error_status (status_code response) then
        (Raise (HTTPError (status_code response)),
         [EvExport token (fstr group) rid])
      else (Ok (content response), [EvExport token (fstr group) rid])
  | Raise e => (Raise e, [EvExport token (fstr group) rid])
  end.
Proof.
  unfold export_report. rewrite bind_perform.
  destruct (get_export w h token (fstr group) rid) as [response|e];
    [|reflexivity].
  unfold raise_for_status.
  destruct (is_error_status (status_code response)); reflexivity.
Qed.

Lemma import_report_run token group rname c h :
  import_report w token group rname c h =
  match post_import w h token (fstr group) rname c with
  | Ok response =>
      match json_import w (content response) with
      | Ok body =>
          if bool_decide (status_code response = 202%Z) then
            (Ok (Some body), [EvImport token (fstr group) rname c])
          else
            (Ok None,
             [EvImport token (fstr group) rname c;
              EvPrint (MsgImportBody body)])
      | Raise e => (Raise e, [EvImport token (fstr group) rname c])
      end
  | Raise e => (Raise e, [EvImport token (fstr group) rname c])
  end.
Proof.
  unfold import_report. rewrite bind_perform.
  destruct (post_import w h token (fstr group) rname c) as [response|e];
    [|reflexivity].
  destruct (bool_decide (status_code response = 202%Z)); cbn [negb];
    rewrite bind_lift;
    destruct (json_import w (content response)); reflexivity.
Qed.

Lemma upload_report_to_gcs_run c rname h :
  upload_report_to_gcs w env c rname h =
  match upload_from_string w h ((BUCKET_NAME env))
          (destination_blob_name env rname) c with
  | Ok _ =>
      (Ok tt,
       [EvUpload ((BUCKET_NAME env)) (destination_blob_name env rname) c;
        EvPrint (MsgUploaded rname (destination_blob_name env rname))])
  | Raise e =>
      (Raise e,
       [EvUpload ((BUCKET_NAME env)) (destination_blob_name env rname) c])
  end.
Proof.
  unfold upload_report_to_gcs. rewrite bind_perform.
  destruct (upload_from_string w h _ _ c) as [[]|e]; reflexivity.
Qed.

Lemma get_reports_run token ws h :
  get_reports w token ws h =
  match get_reports_listing w h token (fstr ws) with
  | Ok response =>
      if bool_decide (status_code response = 200%Z) then
        match json_reports w (content response) with
        | Ok value =>
            (Ok (Some (List.map
                         (fun result => mkReport (id result) (name result))
                         value)),
             [EvReports token (fstr ws)])
        | Raise e => (Raise e, [EvReports token (fstr ws)])
        end
      else
        (Ok None,
         [EvReports token (fstr ws);
          EvPrint (MsgListError (status_code response) (fstr ws))])
  | Raise e => (Raise e, [EvReports token (fstr ws)])
  end.
Proof.
  unfold get_reports. rewrite bind_perform.
  destruct (get_reports_listing w h token (fstr ws)) as [response|e];
    [|reflexivity].
  destruct (bool_decide (status_code response = 200%Z)); [|reflexivity].
  rewrite bind_lift.
  destruct (json_reports w (content response)); reflexivity.
Qed.

Section LoopRuns.

Variable token_vgm : string.
Variable source_workspace_id : option string.
Variable token_ft : string.
Variable target_workspace_id : option string.
Variable lookup : gmap string Report.

Local Abbreviation body :=
  (migrate_report w env token_vgm source_workspace_id token_ft
     target_workspace_id lookup).
Local Abbreviation loop :=
  (migrate_reports w env token_vgm source_workspace_id token_ft
     target_workspace_id lookup).
Local Abbreviation started := ev_started.
Local Abbreviation exported := (ev_exported token_vgm source_workspace_id).
Local Abbreviation archived := (ev_archived env token_vgm source_workspace_id).
Local Abbreviation import_called :=
  (ev_import_called env token_vgm source_workspace_id token_ft
     target_workspace_id).

Lemma loop_cons_Ok report rest dst h dst' evs :
  body report dst h = (Ok dst', evs) ->
  loop (report :: rest) dst h = after evs (loop rest dst' (h ++ evs)).
Proof. intros Hb. simpl. apply bind_Ok. exact Hb. Qed.

Lemma loop_cons_Raise report rest dst h e evs :
  body report dst h = (Raise e, evs) ->
  loop (report :: rest) dst h = (Raise e, evs).
Proof. intros Hb. simpl. apply bind_Raise. exact Hb. Qed.

Lemma loop_app pre post dst h :
  loop (pre ++ post) dst h = bind (loop pre dst) (loop post) h.
Proof.
  revert dst h. induction pre as [|r pre IH]; intros dst h; simpl.
  - rewrite bind_ret_l. reflexivity.
  - rewrite bind_assoc. apply bind_ext. intros dst' h'. apply IH.
Qed.

(** The body once the two guards of lines 158 and 160 let the report
    through. *)
Lemma body_transfer report dst h ign :
  IGNORE_REPORTS env = Some ign ->
  str_in (name report) ign = false ->
  lookup !! name report = None ->
  body report dst h =
  after (started report)
    (bind (export_report w token_vgm source_workspace_id (id report))
       (fun report_content =>
          bind
            (if truthy report_content then
               bind (upload_report_to_gcs w env report_content (name report))
                 (fun _ =>
                    bind (import_report w token_ft target_workspace_id
                            (name report) report_content)
                      (fun import_response =>
                         bind (print (MsgSuccessful import_response))
                           (fun _ => ret (dst ++ [report]))))
             else
               bind (print (MsgFailed (name report))) (fun _ => ret dst))
            (fun dst' => bind (print MsgTook) (fun _ => ret dst')))
       (h ++ started report)).
Proof.
  intros Hign Hni Hnp. unfold migrate_report. rewrite Hign, Hni. cbn [negb].
  cbv iota. rewrite bool_decide_eq_false_2.
  2:{ rewrite Hnp. intros [x Hx]. discriminate. }
  rewrite bind_print, bind_print, after_after, <- app_assoc. reflexivity.
Qed.

Lemma body_ignored report dst h ign :
  IGNORE_REPORTS env = Some ign ->
  str_in (name report) ign = true ->
  body report dst h = (Ok dst, []).
Proof.
  intros Hign Hin. unfold migrate_report. rewrite Hign, Hin. reflexivity.
Qed.

Lemma body_present report dst h ign :
  IGNORE_REPORTS env = Some ign ->
  str_in (name report) ign = false ->
  is_Some (lookup !! name report) ->
  body report dst h = (Ok dst, [EvPrint (MsgAlreadyExists (name report))]).
Proof.
  intros Hign Hni Hp. unfold migrate_report. rewrite Hign, Hni. cbn [negb].
  cbv iota. rewrite bool_decide_eq_true_2 by exact Hp. reflexivity.
Qed.

Lemma body_export_raises report dst h ign e :
  IGNORE_REPORTS env = Some ign ->
  str_in (name report) ign = false ->
  lookup !! name report = None ->
  get_export w (h ++ started report) token_vgm (fstr source_workspace_id)
    (id report) = Raise e ->
  body report dst h = (Raise e, exported report).
Proof.
  intros Hign Hni Hnp He. rewrite (body_transfer _ _ _ ign) by assumption.
  erewrite bind_Raise; [reflexivity|].
  rewrite export_report_run, He. reflexivity.
Qed.

Lemma body_export_error_status report dst h ign response :
  IGNORE_REPORTS env = Some ign ->
  str_in (name report) ign = false ->
  lookup !! name report = None ->
  get_export w (h ++ started report) token_vgm (fstr source_workspace_id)
    (id report) = Ok response ->
  is_error_status (status_code response) = true ->
  body report dst h = (Raise (HTTPError (status_code response)), exported report).
Proof.
  intros Hign Hni Hnp He Hs. rewrite (body_transfer _ _ _ ign) by assumption.
  erewrite bind_Raise; [reflexivity|].
  rewrite export_report_run, He, Hs. reflexivity.
Qed.

Lemma body_export_content report dst h ign response :
  IGNORE_REPORTS env = Some ign ->
  str_in (name report) ign = false ->
  lookup !! name report = None ->
  get_export w (h ++ started report) token_vgm (fstr source_workspace_id)
    (id report) = Ok response ->
  is_error_status (status_code response) = false ->
  body report dst h =
  after (exported report)
    (bind
       (if truthy (content response) then
          bind (upload_report_to_gcs w env (content response) (name report))
            (fun _ =>
               bind (import_report w token_ft target_workspace_id
                       (name report) (content response))
                 (fun import_response =>
                    bind (print (MsgSuccessful import_response))
                      (fun _ => ret (dst ++ [report]))))
        else bind (print (MsgFailed (name report))) (fun _ => ret dst))
       (fun dst' => bind (print MsgTook) (fun _ => ret dst'))
       (h ++ exported report)).
Proof.
  intros Hign Hni Hnp He Hs. rewrite (body_transfer _ _ _ ign) by assumption.
  erewrite bind_Ok.
  2:{ rewrite export_report_run, He, Hs. reflexivity. }
  rewrite after_after. unfold ev_exported. rewrite app_assoc. reflexivity.
Qed.

Lemma body_export_empty report dst h ign response :
  IGNORE_REPORTS env = Some ign ->
  str_in (name report) ign = false ->
  lookup !! name report = None ->
  get_export w (h ++ started report) token_vgm (fstr source_workspace_id)
    (id report) = Ok response ->
  is_error_status (status_code response) = false ->
  content response = [] ->
  body report dst h =
  (Ok dst,
   exported report ++ [EvPrint (MsgFailed (name report)); EvPrint MsgTook]).
Proof.
  intros Hign Hni Hnp He Hs Hc.
  rewrite (body_export_content _ _ _ ign response) by assumption.
  rewrite Hc. reflexivity.
Qed.

Lemma body_upload_raises report dst h ign response e :
  IGNORE_REPORTS env = Some ign ->
  str_in (name report) ign = false ->
  lookup !! name report = None ->
  get_export w (h ++ started report) token_vgm (fstr source_workspace_id)
    (id report) = Ok response ->
  is_error_status (status_code response) = false ->
  truthy (content response) = true ->
  upload_from_string w (h ++ exported report) ((BUCKET_NAME env))
    (destination_blob_name env (name report)) (content response) = Raise e ->
  body report dst h = (Raise e, archived report (content response)).
Proof.
  intros Hign Hni Hnp He Hs Hc Hu.
  rewrite (body_export_content _ _ _ ign response) by assumption.
  rewrite Hc. erewrite bind_Raise; [reflexivity|].
  erewrite bind_Raise; [reflexivity|].
  rewrite upload_report_to_gcs_run, Hu. reflexivity.
Qed.

(** The body once the store has returned: what [import_report] does
    decides the rest. *)
Lemma body_import_returns report dst h ign response import_response log :
  IGNORE_REPORTS env = Some ign ->
  str_in (name report) ign = false ->
  lookup !! name report = None ->
  get_export w (h ++ started report) token_vgm (fstr source_workspace_id)
    (id report) = Ok response ->
  is_error_status (status_code response) = false ->
  truthy (content response) = true ->
  upload_from_string w (h ++ exported report) ((BUCKET_NAME env))
    (destination_blob_name env (name report)) (content response) = Ok tt ->
  import_report w token_ft target_workspace_id (name report)
    (content response)
    (h ++ archived report (content response) ++
     [EvPrint (MsgUploaded (name report)
                 (destination_blob_name env (name report)))])
  = (Ok import_response, log) ->
  body report dst h =
  (Ok (dst ++ [report]),
   archived report (content response) ++
   [EvPrint (MsgUploaded (name report)
               (destination_blob_name env (name report)))] ++
   log ++ [EvPrint (MsgSuccessful import_response); EvPrint MsgTook]).
Proof.
  intros Hign Hni Hnp He Hs Hc Hu Hi.
  rewrite (body_export_content _ _ _ ign response) by assumption.
  rewrite Hc.
  erewrite bind_Ok.
  2:{ erewrite bind_Ok.
      2:{ rewrite upload_report_to_gcs_run, Hu. reflexivity. }
      erewrite bind_Ok.
      2:{ unfold ev_archived in Hi. rewrite <- !app_assoc in Hi |- *.
          simpl in Hi |- *. exact Hi. }
      rewrite bind_print. reflexivity. }
  rewrite bind_print. unfold after, ret, ev_archived. simpl.
  rewrite <- !app_assoc. simpl. reflexivity.
Qed.

Lemma body_import_fails report dst h ign response e log :
  IGNORE_REPORTS env = Some ign ->
  str_in (name report) ign = false ->
  lookup !! name report = None ->
  get_export w (h ++ started report) token_vgm (fstr source_workspace_id)
    (id report) = Ok response ->
  is_error_status (status_code response) = false ->
  truthy (content response) = true ->
  upload_from_string w (h ++ exported report) ((BUCKET_NAME env))
    (destination_blob_name env (name report)) (content response) = Ok tt ->
  import_report w token_ft target_workspace_id (name report)
    (content response)
    (h ++ archived report (content response) ++
     [EvPrint (MsgUploaded (name report)
                 (destination_blob_name env (name report)))])
  = (Raise e, log) ->
  body report dst h =
  (Raise e,
   archived report (content response) ++
   [EvPrint (MsgUploaded (name report)
               (destination_blob_name env (name report)))] ++ log).
Proof.
  intros Hign Hni Hnp He Hs Hc Hu Hi.
  rewrite (body_export_content _ _ _ ign response) by assumption.
  rewrite Hc. erewrite bind_Raise; [reflexivity|].
  erewrite bind_Ok.
  2:{ rewrite upload_report_to_gcs_run, Hu. reflexivity. }
  erewrite bind_Raise.
  2:{ unfold ev_archived in Hi. rewrite <- !app_assoc in Hi |- *.
      simpl in Hi |- *. exact Hi. }
  unfold after, ev_archived. simpl. rewrite <- ?app_assoc. reflexivity.
Qed.

Lemma body_import_raises report dst h ign response e :
  IGNORE_REPORTS env = Some ign ->
  str_in (name report) ign = false ->
  lookup !! name report = None ->
  get_export w (h ++ started report) token_vgm (fstr source_workspace_id)
    (id report) = Ok response ->
  is_error_status (status_code response) = false ->
  truthy (content response) = true ->
  upload_from_string w (h ++ exported report) ((BUCKET_NAME env))
    (destination_blob_name env (name report)) (content response) = Ok tt ->
  post_import w (h ++ archived report (content response) ++
                 [EvPrint (MsgUploaded (name report)
                             (destination_blob_name env (name report)))])
    token_ft (fstr target_workspace_id) (name report) (content response)
  = Raise e ->
  body report dst h = (Raise e, import_called report (content response)).
Proof.
  intros Hign Hni Hnp He Hs Hc Hu Hi.
  rewrite (body_import_fails _ _ _ ign response e
             [EvImport token_ft (fstr target_workspace_id) (name report)
                (content response)]); try assumption.
  - reflexivity.
  - rewrite import_report_run, Hi. reflexivity.
Qed.

Lemma body_import_undecoded report dst h ign response iresp e :
  IGNORE_REPORTS env = Some ign ->
  str_in (name report) ign = false ->
  lookup !! name report = None ->
  get_export w (h ++ started report) token_vgm (fstr source_workspace_id)
    (id report) = Ok response ->
  is_error_status (status_code response) = false ->
  truthy (content response) = true ->
  upload_from_string w (h ++ exported report) ((BUCKET_NAME env))
    (destination_blob_name env (name report)) (content response) = Ok tt ->
  post_import w (h ++ archived report (content response) ++
                 [EvPrint (MsgUploaded (name report)
                             (destination_blob_name env (name report)))])
    token_ft (fstr target_workspace_id) (name report) (content response)
  = Ok iresp ->
  json_import w (content iresp) = Raise e ->
  body report dst h = (Raise e, import_called report (content response)).
Proof.
  intros Hign Hni Hnp He Hs Hc Hu Hi Hj.
  rewrite (body_import_fails _ _ _ ign response e
             [EvImport token_ft (fstr target_workspace_id) (name report)
                (content response)]); try assumption.
  - reflexivity.
  - rewrite import_report_run, Hi, Hj. reflexivity.
Qed.

Lemma body_imported report dst h ign response iresp decoded :
  IGNORE_REPORTS env = Some ign ->
  str_in (name report) ign = false ->
  lookup !! name report = None ->
  get_export w (h ++ started report) token_vgm (fstr source_workspace_id)
    (id report) = Ok response ->
  is_error_status (status_code response) = false ->
  truthy (content response) = true ->
  upload_from_string w (h ++ exported report) ((BUCKET_NAME env))
    (destination_blob_name env (name report)) (content response) = Ok tt ->
  post_import w (h ++ archived report (content response) ++
                 [EvPrint (MsgUploaded (name report)
                             (destination_blob_name env (name report)))])
    token_ft (fstr target_workspace_id) (name report) (content response)
  = Ok iresp ->
  json_import w (content iresp) = Ok decoded ->
  body report dst h =
  (Ok (dst ++ [report]),
   import_called report (content response) ++
   (if bool_decide (status_code iresp = 202%Z) then []
    else [EvPrint (MsgImportBody decoded)]) ++
   [EvPrint (MsgSuccessful
               (if bool_decide (status_code iresp = 202%Z)
                then Some decoded else None));
    EvPrint MsgTook]).
Proof.
  intros Hign Hni Hnp He Hs Hc Hu Hi Hj.
  rewrite (body_import_returns _ _ _ ign response
             (if bool_decide (status_code iresp = 202%Z)
              then Some decoded else None)
             (EvImport token_ft (fstr target_workspace_id) (name report)
                (content response) ::
              (if bool_decide (status_code iresp = 202%Z) then []
               else [EvPrint (MsgImportBody decoded)])));
    try assumption.
  - reflexivity.
  - rewrite import_report_run, Hi, Hj.
    destruct (bool_decide (status_code iresp = 202%Z)); reflexivity.
Qed.

End LoopRuns.
End Runs.

(** ** The destination lookup *)

Lemma foldl_by_name_is_Some (reports : list Report) (d : gmap string Report)
    (k : string) :
  is_Some (foldl (fun d report => <[name report := report]> d) d reports !! k)
  <-> is_Some (d !! k) \/ exists r, r ∈ reports /\ name r = k.
Proof.
  revert d. induction reports as [|x reports IH]; intros d; simpl.
  - split; [auto|]. intros [Hd|[r [Hr _]]]; [exact Hd|]. inversion Hr.
  - rewrite IH, lookup_insert_is_Some. split.
    + intros [[Heq|[_ Hd]]|[r [Hr Hk]]].
      * right. exists x. split; [left|exact Heq].
      * left. exact Hd.
      * right. exists r. split; [right; exact Hr|exact Hk].
    + intros [Hd|[r [Hr Hk]]].
      * destruct (decide (name x = k)) as [Heq|Hne]; left; [left|right]; auto.
      * inversion Hr; subst.
        -- left. left. reflexivity.
        -- right. exists r. auto.
Qed.

Lemma by_name_is_Some (reports : list Report) (k : string) :
  is_Some (by_name reports !! k) <-> exists r, r ∈ reports /\ name r = k.
Proof.
  unfold by_name. rewrite foldl_by_name_is_Some. split; [|auto].
  intros [Hd|Hr]; [|exact Hr].
  rewrite lookup_empty in Hd. destruct Hd as [x Hx]. discriminate.
Qed.

(** ** The ignore configuration *)

Lemma comma_separated_cons (x : string) (rest : list string) :
  exists post, comma_separated (x :: rest) = x +:+ post.
Proof.
  destruct rest as [|y rest].
  - exists "". simpl. induction x as [|c x IH]; [reflexivity|].
    rewrite append_cons, <- IH. reflexivity.
  - eexists. reflexivity.
Qed.

Lemma comma_separated_member (x : string) (items : list string) :
  x ∈ items -> exists pre post, comma_separated items = pre +:+ x +:+ post.
Proof.
  induction items as [|y items IH]; intros Hx; [inversion Hx|].
  inversion Hx as [? ? Heq|? ? ? Hin]; subst.
  - destruct (comma_separated_cons y items) as [post Hp].
    exists "", post. exact Hp.
  - destruct (IH Hin) as [pre [post Hp]].
    destruct items as [|z items]; [inversion Hin|].
    exists (y +:+ ", " +:+ pre), post.
    change (comma_separated (y :: z :: items))
      with (y +:+ ", " +:+ comma_separated (z :: items)).
    rewrite Hp, !append_assoc. reflexivity.
Qed.

Lemma ignore_config_member (n : string) (names : list string) :
  n ∈ names -> str_in n (ignore_config names) = true.
Proof.
  intros Hn. apply str_in_spec.
  destruct (comma_separated_member (quoted n) (List.map quoted names))
    as [pre [post Hp]].
  { apply list_elem_of_In, in_map, list_elem_of_In, Hn. }
  exists ("[" +:+ pre +:+ dquote), (dquote +:+ post +:+ "]").
  unfold ignore_config. rewrite Hp. unfold quoted.
  rewrite !append_assoc. reflexivity.
Qed.

(** ** Occurrences of an event in a trace *)

Lemma app_split_at {A} (x : A) (l1 l2 t1 t2 : list A) :
  l1 ++ l2 = t1 ++ x :: t2 ->
  (exists t2', l1 = t1 ++ x :: t2' /\ t2 = t2' ++ l2) \/
  (exists t1', t1 = l1 ++ t1' /\ l2 = t1' ++ x :: t2).
Proof.
  revert t1. induction l1 as [|y l1 IH]; intros t1 Heq.
  - right. exists t1. auto.
  - destruct t1 as [|z t1]; simpl in Heq.
    + injection Heq as -> <-. left. exists l1. auto.
    + injection Heq as -> Heq. destruct (IH _ Heq) as [[t2' [-> ->]]|[t1' [-> ->]]].
      * left. exists t2'. auto.
      * right. exists t1'. auto.
Qed.

Lemma unique_occurrence {A} (p : A -> bool) (x y : A)
    (pre post t1 t2 : list A) :
  pre ++ x :: post = t1 ++ y :: t2 ->
  p y = true ->
  forallb (fun e => negb (p e)) pre = true ->
  forallb (fun e => negb (p e)) post = true ->
  t1 = pre /\ y = x /\ t2 = post.
Proof.
  revert t1. induction pre as [|z pre IH]; intros t1 Heq Hy Hpre Hpost.
  - destruct t1 as [|z t1]; simpl in Heq.
    + injection Heq as -> ->. auto.
    + injection Heq as -> Heq. exfalso.
      rewrite forallb_forall in Hpost. specialize (Hpost y).
      rewrite Hy in Hpost. discriminate Hpost.
      rewrite Heq. apply in_or_app. right. left. reflexivity.
  - simpl in Hpre. apply andb_true_iff in Hpre as [Hz Hpre].
    destruct t1 as [|u t1]; simpl in Heq.
    + injection Heq as -> _. rewrite Hy in Hz. discriminate.
    + injection Heq as -> Heq.
      destruct (IH t1 Heq Hy Hpre Hpost) as [-> [-> ->]]. auto.
Qed.

(** ** Every import follows the archive of the same bytes *)

Section ArchiveFirst.

Variable w : World.
Variable env : Env.
Variable token_vgm : string.
Variable source_workspace_id : option string.
Variable token_ft : string.
Variable target_workspace_id : option string.
Variable lookup : gmap string Report.

Local Abbreviation body :=
  (migrate_report w env token_vgm source_workspace_id token_ft
     target_workspace_id lookup).
Local Abbreviation loop :=
  (migrate_reports w env token_vgm source_workspace_id token_ft
     target_workspace_id lookup).
Local Abbreviation started := ev_started.
Local Abbreviation exported := (ev_exported token_vgm source_workspace_id).
Local Abbreviation archived := (ev_archived env token_vgm source_workspace_id).

Lemma body_import_justified report dst h t1 t2 tok grp nm c :
  snd (body report dst h) = t1 ++ EvImport tok grp nm c :: t2 ->
  tok = token_ft /\ grp = fstr target_workspace_id /\ nm = name report /\
  t1 = archived report c ++
       [EvPrint (MsgUploaded (name report)
                   (destination_blob_name env (name report)))] /\
  exists response,
    get_export w (h ++ started report) token_vgm (fstr source_workspace_id)
      (id report) = Ok response /\
    content response = c /\
    upload_from_string w (h ++ exported report) ((BUCKET_NAME env))
      (destination_blob_name env (name report)) c = Ok tt.
Proof.
  intros Htr.
  destruct (IGNORE_REPORTS env) as [ign|] eqn:Hign.
  2:{ unfold migrate_report in Htr. rewrite Hign in Htr. no_import Htr. }
  destruct (str_in (name report) ign) eqn:Hni.
  { rewrite (body_ignored _ _ _ _ _ _ _ _ _ _ ign) in Htr by assumption.
    no_import Htr. }
  destruct (lookup !! name report) as [d|] eqn:Hnp.
  { rewrite (body_present _ _ _ _ _ _ _ _ _ _ ign) in Htr;
      [no_import Htr|assumption..|rewrite Hnp; eauto]. }
  destruct (get_export w (h ++ started report) token_vgm
              (fstr source_workspace_id) (id report))
    as [response|e] eqn:He.
  2:{ rewrite (body_export_raises _ _ _ _ _ _ _ _ _ _ ign e) in Htr
        by assumption.
      no_import Htr. }
  destruct (is_error_status (status_code response)) eqn:Hs.
  { rewrite (body_export_error_status _ _ _ _ _ _ _ _ _ _ ign response) in Htr
      by assumption.
    no_import Htr. }
  destruct (truthy (content response)) eqn:Hc.
  2:{ rewrite (body_export_empty _ _ _ _ _ _ _ _ _ _ ign response) in Htr;
        [no_import Htr|try assumption..].
      destruct (content response); [reflexivity|discriminate]. }
  destruct (upload_from_string w (h ++ exported report) ((BUCKET_NAME env))
              (destination_blob_name env (name report)) (content response))
    as [[]|e] eqn:Hu.
  2:{ rewrite (body_upload_raises _ _ _ _ _ _ _ _ _ _ ign response e) in Htr
        by assumption.
      no_import Htr. }
  assert (Hshape : exists post,
             snd (body report dst h) =
             (archived report (content response) ++
              [EvPrint (MsgUploaded (name report)
                          (destination_blob_name env (name report)))]) ++
             EvImport token_ft (fstr target_workspace_id) (name report)
               (content response) :: post /\
             forallb (fun e => negb (is_import e)) post = true).
  { destruct (post_import w
                (h ++ archived report (content response) ++
                 [EvPrint (MsgUploaded (name report)
                             (destination_blob_name env (name report)))])
                token_ft (fstr target_workspace_id) (name report)
                (content response)) as [iresp|e] eqn:Hi.
    - destruct (json_import w (content iresp)) as [decoded|e] eqn:Hj.
      + rewrite (body_imported _ _ _ _ _ _ _ _ _ _ ign response iresp decoded)
          by assumption.
        eexists. split.
        * reflexivity.
        * destruct (bool_decide (status_code iresp = 202%Z)); reflexivity.
      + rewrite (body_import_undecoded _ _ _ _ _ _ _ _ _ _ ign response iresp
                   e) by assumption.
        exists []. split; reflexivity.
    - rewrite (body_import_raises _ _ _ _ _ _ _ _ _ _ ign response e)
        by assumption.
      exists []. split; [|reflexivity].
      reflexivity. }
  destruct Hshape as [post [Hshape Hpost]]. rewrite Hshape in Htr.
  apply (unique_occurrence is_import) in Htr as [Ht1 [Hev _]];
    [|reflexivity|reflexivity|exact Hpost].
  injection Hev as -> -> -> ->.
  repeat split; try reflexivity; [exact Ht1|].
  exists response. auto.
Qed.

Lemma loop_import_justified
    (src dst : list Report) (h t1 t2 : list event) (tok grp nm : string)
    (c : bytes) :
  snd (loop src dst h) = t1 ++ EvImport tok grp nm c :: t2 ->
  exists t0 report response,
    report ∈ src /\ nm = name report /\
    t1 = t0 ++
         [EvExport token_vgm (fstr source_workspace_id) (id report);
          EvUpload (BUCKET_NAME env)
            (fstr (BUCKET_DESTINATION_DIRECTORY env) +:+ "/" +:+ nm
               +:+ ".pbix") c;
          EvPrint (MsgUploaded nm
                     (fstr (BUCKET_DESTINATION_DIRECTORY env) +:+ "/" +:+ nm
                        +:+ ".pbix"))] /\
    get_export w (h ++ t0) token_vgm (fstr source_workspace_id) (id report)
    = Ok response /\
    content response = c /\
    upload_from_string w
      (h ++ t0 ++ [EvExport token_vgm (fstr source_workspace_id) (id report)])
      (BUCKET_NAME env)
      (fstr (BUCKET_DESTINATION_DIRECTORY env) +:+ "/" +:+ nm +:+ ".pbix") c
    = Ok tt.
Proof.
  revert dst h t1. induction src as [|r rest IH]; intros dst h t1 Htr.
  { simpl in Htr. destruct t1; discriminate. }
  assert (Hhere : forall t2',
             snd (body r dst h) = t1 ++ EvImport tok grp nm c :: t2' ->
             exists t0 report response,
               report ∈ r :: rest /\ nm = name report /\
               t1 = t0 ++
                    [EvExport token_vgm (fstr source_workspace_id) (id report);
                     EvUpload (BUCKET_NAME env)
                       (destination_blob_name env nm) c;
                     EvPrint (MsgUploaded nm (destination_blob_name env nm))]
               /\
               get_export w (h ++ t0) token_vgm (fstr source_workspace_id)
                 (id report) = Ok response /\
               content response = c /\
               upload_from_string w
                 (h ++ t0 ++
                  [EvExport token_vgm (fstr source_workspace_id) (id report)])
                 (BUCKET_NAME env) (destination_blob_name env nm) c
               = Ok tt).
  { intros t2' Hb.
    apply body_import_justified in Hb
      as (_ & _ & -> & -> & response & He & Hc & Hu).
    exists (ev_started r), r, response. repeat split; try assumption.
    left. }
  destruct (body r dst h) as [[dst'|e] evs] eqn:Hb.
  - rewrite (loop_cons_Ok _ _ _ _ _ _ _ _ _ _ _ dst' evs Hb) in Htr.
    simpl in Htr. apply app_split_at in Htr
      as [(t2' & Hevs & _)|(t1' & -> & Hrest)].
    + apply (Hhere t2'). exact Hevs.
    + apply IH in Hrest
        as (t0 & report & response & Hin & Hnm & -> & He & Hc & Hu).
      exists (evs ++ t0), report, response.
      rewrite <- !app_assoc in He, Hu. rewrite <- !app_assoc.
      repeat split; try assumption. right. exact Hin.
  - rewrite (loop_cons_Raise _ _ _ _ _ _ _ _ _ _ _ e evs Hb) in Htr.
    simpl in Htr. apply (Hhere t2). exact Htr.
Qed.

Lemma loop_archive_first src dst h :
  archive_first w env h (snd (loop src dst h)).
Proof.
  intros t1 t2 tok grp nm c Htr.
  apply loop_import_justified in Htr
    as (t0 & report & response & _ & _ & Ht1 & He & Hc & Hu).
  exists t0, token_vgm, (fstr source_workspace_id), (id report), response.
  auto.
Qed.

End ArchiveFirst.

(** ** The whole run: only the loop imports *)

Lemma quiet_ret {A} (a : A) : quiet (ret a).
Proof. intros h. reflexivity. Qed.

Lemma quiet_raise {A} (e : exn) : quiet (@raise A e).
Proof. intros h. reflexivity. Qed.

Lemma quiet_print (m : msg) : quiet (print m).
Proof. intros h. reflexivity. Qed.

Lemma quiet_lift {A} (r : res A) : quiet (lift r).
Proof. intros h. reflexivity. Qed.

Lemma quiet_perform {A} (ev : event) (oracle : list event -> res A) :
  is_import ev = false -> quiet (perform ev oracle).
Proof. intros Hev h. simpl. rewrite Hev. reflexivity. Qed.

Lemma quiet_bind {A B} (m : M A) (f : A -> M B) :
  quiet m -> (forall a, quiet (f a)) -> quiet (bind m f).
Proof.
  intros Hm Hf h. unfold bind. specialize (Hm h).
  destruct (m h) as [[a|e] t1]; [|exact Hm].
  specialize (Hf a (h ++ t1)). destruct (f a (h ++ t1)) as [r t2].
  simpl in *. rewrite existsb_app, Hm, Hf. reflexivity.
Qed.

Create HintDb quiet.
#[local] Hint Resolve quiet_ret quiet_raise quiet_print quiet_bind : quiet.
#[local] Hint Resolve quiet_lift : quiet.
#[local] Hint Resolve quiet_perform : quiet.
#[local] Hint Extern 1 (is_import _ = false) => reflexivity : quiet.
#[local] Hint Extern 2 (quiet (if ?b then _ else _)) => destruct b : quiet.
#[local] Hint Extern 2 (quiet (match ?x with _ => _ end)) =>
  destruct x : quiet.

Lemma quiet_get_secret w env secret_name : quiet (get_secret w env secret_name).
Proof. unfold get_secret. auto 20 with quiet. Qed.

Lemma quiet_get_access_token w tenant_info :
  quiet (get_access_token w tenant_info).
Proof. unfold get_access_token, raise_for_status. auto 20 with quiet. Qed.

Lemma quiet_get_workspace w token wn : quiet (get_workspace w token wn).
Proof. unfold get_workspace, raise_for_status. auto 20 with quiet. Qed.

Lemma quiet_get_reports w token ws : quiet (get_reports w token ws).
Proof. unfold get_reports. auto 20 with quiet. Qed.

Lemma quiet_py_len {A} (x : option (list A)) : quiet (py_len x).
Proof. unfold py_len. auto 20 with quiet. Qed.

Lemma quiet_py_iter {A} (x : option (list A)) : quiet (py_iter x).
Proof. unfold py_iter. auto 20 with quiet. Qed.

Lemma archive_first_quiet_bind {A B} w env (m : M A) (f : A -> M B) :
  quiet m ->
  (forall a h, archive_first w env h (snd (f a h))) ->
  forall h, archive_first w env h (snd (bind m f h)).
Proof.
  intros Hm Hf h t1 t2 tok grp nm c Htr.
  unfold bind in Htr. specialize (Hm h).
  destruct (m h) as [[a|e] tm].
  - specialize (Hf a (h ++ tm)). destruct (f a (h ++ tm)) as [r tf].
    simpl in *. apply app_split_at in Htr
      as [(t2' & Htm & _)|(t1' & -> & Htf)].
    + rewrite Htm, existsb_app in Hm. simpl in Hm.
      rewrite orb_true_r in Hm. discriminate.
    + destruct (Hf _ _ _ _ _ _ Htf)
        as (t0 & tok_src & grp_src & rid & response & -> & He & Hc & Hu).
      exists (tm ++ t0), tok_src, grp_src, rid, response.
      rewrite <- !app_assoc in He, Hu. rewrite <- !app_assoc. auto.
  - simpl in *. rewrite Htr, existsb_app in Hm. simpl in Hm.
    rewrite orb_true_r in Hm. discriminate.
Qed.

(** In a whole run of [main] the same holds: nothing before the loop makes
    an import call. *)
Lemma main_archive_first (w : World) (env : Env) (h : list event) :
  archive_first w env h (snd (main w env h)).
Proof.
  revert h. unfold main.
  apply archive_first_quiet_bind; [apply quiet_get_secret|intros secret_string].
  apply archive_first_quiet_bind; [apply quiet_lift|intros secrets].
  apply archive_first_quiet_bind;
    [apply quiet_get_access_token|intros token_vgm].
  apply archive_first_quiet_bind;
    [apply quiet_get_workspace|intros source_workspace_id].
  apply archive_first_quiet_bind;
    [apply quiet_get_reports|intros source_reports_dict].
  apply archive_first_quiet_bind; [apply quiet_py_len|intros n_src].
  apply archive_first_quiet_bind; [apply quiet_print|intros _].
  apply archive_first_quiet_bind;
    [apply quiet_get_access_token|intros token_ft].
  apply archive_first_quiet_bind;
    [apply quiet_get_workspace|intros target_workspace_id].
  apply archive_first_quiet_bind;
    [apply quiet_get_reports|intros dst_reports_dict].
  apply archive_first_quiet_bind; [apply quiet_py_iter|intros dst_list].
  cbv zeta.
  apply archive_first_quiet_bind; [apply quiet_py_len|intros n_dst].
  apply archive_first_quiet_bind; [apply quiet_print|intros _].
  apply archive_first_quiet_bind; [apply quiet_py_iter|intros src_list].
  intros h. apply loop_archive_first.
Qed.

(** * The claims *)

(** C8 (workspace resolution).  Once the groups listing is obtained (the
    call returns, its status is no client or server error, and its body
    decodes to a listing), [get_workspace] returns the id of the first
    listed workspace whose name equals the requested one, whatever follows
    it in the listing, and [None] when no listed workspace has that name. *)
Theorem get_workspace_first_match (w : World) (token n : string)
    (h : list event) (response : Response) (listing : list Workspace) :
  get_groups w h token = Ok response ->
  is_error_status (status_code response) = false ->
  json_groups w (content response) = Ok listing ->
  (forall pre x post,
      listing = pre ++ x :: post ->
      ws_name x = n ->
      (forall y, y ∈ pre -> ws_name y <> n) ->
      get_workspace w token (Some n) h
      = (Ok (Some (ws_id x)), [EvGroups token]))
  /\
  ((forall y, y ∈ listing -> ws_name y <> n) ->
   get_workspace w token (Some n) h = (Ok None, [EvGroups token])).
Proof.
  intros Hg Hs Hj. rewrite get_workspace_run, Hg, Hs, Hj. split.
  - intros pre x post Hl Hx Hpre. rewrite Hl, filter_first_match.
    + reflexivity.
    + apply bool_decide_eq_true_2. congruence.
    + intros y Hy. apply bool_decide_eq_false_2. intros Heq.
      apply (Hpre y Hy). congruence.
  - intros Hnone. rewrite filter_no_match; [reflexivity|].
    intros y Hy. apply bool_decide_eq_false_2. intros Heq.
    apply (Hnone y Hy). congruence.
Qed.

Lemma get_workspace_first_match_witness :
  get_workspace (fixture_world fx_duplicate_workspaces) "fake_token_vgm"
    (Some "fake_workspace") []
  = (Ok (Some "first_id"), [EvGroups "fake_token_vgm"])
  /\
  get_workspace (fixture_world fx_duplicate_workspaces) "fake_token_vgm"
    (Some "missing_workspace") []
  = (Ok None, [EvGroups "fake_token_vgm"]).
Proof.
  split.
  - apply (proj1 (get_workspace_first_match
                    (fixture_world fx_duplicate_workspaces) "fake_token_vgm"
                    "fake_workspace" []
                    (mkResponse 200%Z
                       (groups_body (fx_groups fx_duplicate_workspaces)))
                    (fx_groups fx_duplicate_workspaces)
                    eq_refl eq_refl eq_refl)
             [mkWorkspace "other_id" "other_workspace"]
             (mkWorkspace "first_id" "fake_workspace")
             [mkWorkspace "second_id" "fake_workspace"]).
    + reflexivity.
    + reflexivity.
    + intros y Hy. apply list_elem_of_In in Hy. simpl in Hy.
      destruct Hy as [<-|[]]. simpl. discriminate.
  - apply (proj2 (get_workspace_first_match
                    (fixture_world fx_duplicate_workspaces) "fake_token_vgm"
                    "missing_workspace" []
                    (mkResponse 200%Z
                       (groups_body (fx_groups fx_duplicate_workspaces)))
                    (fx_groups fx_duplicate_workspaces)
                    eq_refl eq_refl eq_refl)).
    intros y Hy. apply list_elem_of_In in Hy. simpl in Hy.
    destruct Hy as [<-|[<-|[<-|[]]]]; simpl; discriminate.
Defined.

Section LoopClaims.

Variable w : World.
Variable env : Env.
Variable token_vgm : string.
Variable source_workspace_id : option string.
Variable token_ft : string.
Variable target_workspace_id : option string.

Local Abbreviation body :=
  (migrate_report w env token_vgm source_workspace_id token_ft
     target_workspace_id).
Local Abbreviation loop :=
  (migrate_reports w env token_vgm source_workspace_id token_ft
     target_workspace_id).

(** C5 (ignore-list exclusion).  When IGNORE_REPORTS lists a set of names
    and the name of a source report is one of them, the iteration for that
    report does nothing at all, so no export, archive or import is made for
    it: the run over a catalog that holds the report is, event for event,
    the run over the catalog without it. *)
Theorem ignored_report_is_never_transferred (dst_by_name : gmap string Report)
    (names : list string) (pre : list Report) (report : Report)
    (post dst : list Report) (h : list event) :
  IGNORE_REPORTS env = Some (ignore_config names) ->
  name report ∈ names ->
  body dst_by_name report dst h = (Ok dst, []) /\
  loop dst_by_name (pre ++ report :: post) dst h = loop dst_by_name (pre ++ post) dst h.
Proof.
  intros Hcfg Hin.
  assert (Hb : forall d h', body dst_by_name report d h' = (Ok d, [])).
  { intros d h'. apply (body_ignored _ _ _ _ _ _ _ _ _ _ (ignore_config names)).
    - exact Hcfg.
    - apply ignore_config_member, Hin. }
  split; [apply Hb|].
  rewrite !loop_app. apply bind_ext. intros d h'.
  rewrite (loop_cons_Ok _ _ _ _ _ _ _ _ _ _ _ d []) by apply Hb.
  rewrite after_nil, app_nil_r. reflexivity.
Qed.

(** C9 (substring ignore semantics).  The test of line 158 is a substring
    test on the raw IGNORE_REPORTS text: a report whose name occurs anywhere
    in that text is skipped without any event, hence without a log line,
    whether or not the name is one of the listed names. *)
Theorem substring_of_ignore_text_is_skipped_silently
    (dst_by_name : gmap string Report) (ignore_reports before behind : string)
    (report : Report) (rest dst : list Report) (h : list event) :
  IGNORE_REPORTS env = Some ignore_reports ->
  ignore_reports = before +:+ name report +:+ behind ->
  body dst_by_name report dst h = (Ok dst, []) /\
  loop dst_by_name (report :: rest) dst h = loop dst_by_name rest dst h.
Proof.
  intros Hcfg Hsub.
  assert (Hb : body dst_by_name report dst h = (Ok dst, [])).
  { apply (body_ignored _ _ _ _ _ _ _ _ _ _ ignore_reports); [exact Hcfg|].
    apply str_in_spec. exists before, behind. exact Hsub. }
  split; [exact Hb|].
  rewrite (loop_cons_Ok _ _ _ _ _ _ _ _ _ _ _ dst []) by exact Hb.
  rewrite after_nil, app_nil_r. reflexivity.
Qed.

(** C6 (destination-presence skip).  A report that passes the ignore test
    and whose name equals, character for character, the name of a report of
    the destination catalog from which the lookup was built is skipped: the
    iteration emits the "already exists" line and nothing else, the
    in-memory list is unchanged, and the loop goes on with the rest. *)
Theorem present_in_destination_is_skipped (dst0 : list Report)
    (ignore_reports : string) (report : Report) (rest dst : list Report)
    (h : list event) :
  IGNORE_REPORTS env = Some ignore_reports ->
  str_in (name report) ignore_reports = false ->
  (exists d, d ∈ dst0 /\ name d = name report) ->
  body (by_name dst0) report dst h
  = (Ok dst, [EvPrint (MsgAlreadyExists (name report))]) /\
  loop (by_name dst0) (report :: rest) dst h
  = after [EvPrint (MsgAlreadyExists (name report))]
      (loop (by_name dst0) rest dst
         (h ++ [EvPrint (MsgAlreadyExists (name report))])).
Proof.
  intros Hcfg Hni Hd.
  assert (Hb : body (by_name dst0) report dst h
               = (Ok dst, [EvPrint (MsgAlreadyExists (name report))])).
  { apply (body_present _ _ _ _ _ _ _ _ _ _ ignore_reports); try assumption.
    apply by_name_is_Some. exact Hd. }
  split; [exact Hb|]. apply loop_cons_Ok. exact Hb.
Qed.

(** C2, amended (export failure).  For a report that reaches the export:
    when the export returns no bytes, the iteration logs the failure, makes
    no archive and no import call, and the loop goes on with the next
    report; when the export answers with a client or server error status,
    or the call itself raises, nothing is logged or called after the export
    and the exception ends the run. *)
Theorem export_failure_handling (dst_by_name : gmap string Report)
    (ignore_reports : string) (report : Report) (rest dst : list Report)
    (h : list event) :
  IGNORE_REPORTS env = Some ignore_reports ->
  str_in (name report) ignore_reports = false ->
  dst_by_name !! name report = None ->
  let export_call :=
    [EvPrint (MsgStarted (name report)); EvPrint (MsgReportId (id report));
     EvExport token_vgm (fstr source_workspace_id) (id report)] in
  let reply :=
    get_export w
      (h ++ [EvPrint (MsgStarted (name report));
             EvPrint (MsgReportId (id report))])
      token_vgm (fstr source_workspace_id) (id report) in
  (forall response,
      reply = Ok response ->
      is_error_status (status_code response) = false ->
      content response = [] ->
      loop dst_by_name (report :: rest) dst h
      = after (export_call ++
               [EvPrint (MsgFailed (name report)); EvPrint MsgTook])
          (loop dst_by_name rest dst
             (h ++ export_call ++
              [EvPrint (MsgFailed (name report)); EvPrint MsgTook])))
  /\
  (forall response,
      reply = Ok response ->
      is_error_status (status_code response) = true ->
      loop dst_by_name (report :: rest) dst h
      = (Raise (HTTPError (status_code response)), export_call))
  /\
  (forall e,
      reply = Raise e ->
      loop dst_by_name (report :: rest) dst h = (Raise e, export_call)).
Proof.
  intros Hcfg Hni Hnp export_call reply. repeat split.
  - intros response Hr Hs Hc. apply loop_cons_Ok.
    apply (body_export_empty _ _ _ _ _ _ _ _ _ _ ignore_reports response);
      assumption.
  - intros response Hr Hs. apply loop_cons_Raise.
    apply (body_export_error_status _ _ _ _ _ _ _ _ _ _ ignore_reports response);
      assumption.
  - intros e Hr. apply loop_cons_Raise.
    apply (body_export_raises _ _ _ _ _ _ _ _ _ _ ignore_reports e);
      assumption.
Qed.

Section Reached.

(** A report that reaches the import call: it passes both guards, its
    export returns bytes, and the archival store returns. *)
Variable dst_by_name : gmap string Report.
Variable ignore_reports : string.
Variable report : Report.
Variable h : list event.
Variable response : Response.
Variable iresp : Response.
Variable decoded : descriptor.

Local Abbreviation blob := (destination_blob_name env (name report)).

Local Abbreviation before_export :=
  [EvPrint (MsgStarted (name report)); EvPrint (MsgReportId (id report))].

Local Abbreviation before_upload :=
  (before_export ++
   [EvExport token_vgm (fstr source_workspace_id) (id report)]).

Local Abbreviation before_import :=
  (before_upload ++
   [EvUpload ((BUCKET_NAME env)) blob (content response);
    EvPrint (MsgUploaded (name report) blob)]).

Local Abbreviation import_call :=
  (EvImport token_ft (fstr target_workspace_id) (name report)
     (content response)).

Hypothesis Hconfig : IGNORE_REPORTS env = Some ignore_reports.
Hypothesis Hnot_ignored : str_in (name report) ignore_reports = false.
Hypothesis Hnot_present : dst_by_name !! name report = None.
Hypothesis Hexport :
  get_export w (h ++ before_export) token_vgm (fstr source_workspace_id)
    (id report) = Ok response.
Hypothesis Hexport_status : is_error_status (status_code response) = false.
Hypothesis Hexport_content : truthy (content response) = true.
Hypothesis Hupload :
  upload_from_string w (h ++ before_upload) ((BUCKET_NAME env)) blob
    (content response) = Ok tt.
Hypothesis Himport :
  post_import w (h ++ before_import) token_ft (fstr target_workspace_id)
    (name report) (content response) = Ok iresp.
Hypothesis Hdecoded : json_import w (content iresp) = Ok decoded.




(** C10, amended (success bookkeeping).  For a report whose export returns
    non-empty content and for which the archival store and [import_report]
    both return: whatever [import_report] returned, the decoded body or
    [None], and whatever it logged, the iteration prints the "Successful"
    line with that value and appends the source record to the in-memory
    destination list; the value is never inspected. *)
Theorem success_is_recorded_whatever_the_import_returned
    (dst : list Report) (import_response : option descriptor)
    (log : list event) :
  import_report w token_ft target_workspace_id (name report)
    (content response) (h ++ before_import)
  = (Ok import_response, log) ->
  body dst_by_name report dst h
  = (Ok (dst ++ [report]),
     before_import ++ log ++
     [EvPrint (MsgSuccessful import_response); EvPrint MsgTook]).
Proof.
  intros Hreturned.
  rewrite (body_import_returns _ _ _ _ _ _ _ _ _ _ ignore_reports response
             import_response log);
    try assumption.
  reflexivity.
Qed.

End Reached.

(** C7 (archive before import, exact content).  In any run of the loop,
    every import call is directly preceded by the export call of a source
    report, the store of exactly the bytes that export returned under
    [{directory}/{report_name}.pbix] for that report's name, and the log
    line of the store; the import carries the same name and bytes. *)
Theorem archive_precedes_import (dst_by_name : gmap string Report)
    (src dst : list Report) (h t1 t2 : list event) (tok grp nm : string)
    (c : bytes) :
  snd (loop dst_by_name src dst h) = t1 ++ EvImport tok grp nm c :: t2 ->
  exists t0 report response,
    report ∈ src /\ nm = name report /\
    t1 = t0 ++
         [EvExport token_vgm (fstr source_workspace_id) (id report);
          EvUpload (BUCKET_NAME env)
            (fstr (BUCKET_DESTINATION_DIRECTORY env) +:+ "/" +:+ nm
               +:+ ".pbix") c;
          EvPrint (MsgUploaded nm
                     (fstr (BUCKET_DESTINATION_DIRECTORY env) +:+ "/" +:+ nm
                        +:+ ".pbix"))] /\
    get_export w (h ++ t0) token_vgm (fstr source_workspace_id) (id report)
    = Ok response /\
    content response = c /\
    upload_from_string w
      (h ++ t0 ++ [EvExport token_vgm (fstr source_workspace_id) (id report)])
      (BUCKET_NAME env)
      (fstr (BUCKET_DESTINATION_DIRECTORY env) +:+ "/" +:+ nm +:+ ".pbix") c
    = Ok tt.
Proof. apply loop_import_justified. Qed.

End LoopClaims.

(** * Runs of [main] on the fixtures *)

(** C1 (in-run duplicates), evaluated.  With two source reports of one name
    and an empty destination, the lookup of line 160 is the dictionary built
    before the loop, which the append of line 182 does not touch: the second
    report is exported, archived and imported like the first. *)
Theorem duplicate_name_is_migrated_twice :
  main (fixture_world fx_duplicate_names) test_env []
  = (Ok [mkReport "1" "Report 1"; mkReport "2" "Report 1"],
     [EvSecret
        "projects/fake_project_id/secrets/vgm-secrets-powerbi-migration-tenant-creds/versions/latest";
      EvToken (fake_tenant "vgm");
      EvGroups "fake_token_vgm";
      EvReports "fake_token_vgm" "source_workspace_id";
      EvPrint (MsgSourceCount "fake_workspace" 2);
      EvToken (fake_tenant "ft");
      EvGroups "fake_token_ft";
      EvReports "fake_token_ft" "target_workspace_id";
      EvPrint (MsgDestCount "fake_workspace" 0);
      EvPrint (MsgStarted "Report 1");
      EvPrint (MsgReportId "1");
      EvExport "fake_token_vgm" "source_workspace_id" "1";
      EvUpload (Some "fake_bucket") "fake_directory/Report 1.pbix"
        fake_report_content;
      EvPrint (MsgUploaded "Report 1" "fake_directory/Report 1.pbix");
      EvImport "fake_token_ft" "target_workspace_id" "Report 1"
        fake_report_content;
      EvPrint (MsgSuccessful (Some fake_import_descriptor));
      EvPrint MsgTook;
      EvPrint (MsgStarted "Report 1");
      EvPrint (MsgReportId "2");
      EvExport "fake_token_vgm" "source_workspace_id" "2";
      EvUpload (Some "fake_bucket") "fake_directory/Report 1.pbix"
        fake_report_content;
      EvPrint (MsgUploaded "Report 1" "fake_directory/Report 1.pbix");
      EvImport "fake_token_ft" "target_workspace_id" "Report 1"
        fake_report_content;
      EvPrint (MsgSuccessful (Some fake_import_descriptor));
      EvPrint MsgTook]).
Proof. vm_compute. reflexivity. Qed.

(** C2 as stated fails: when the export of the first of two reports is
    answered with status 500, [raise_for_status] raises, [main] catches
    nothing, and the run ends there: no failure line is printed and the
    second report is never started. *)
Lemma export_error_status_ends_the_run :
  main (fixture_world fx_export_error) test_env []
  = (Raise (HTTPError 500),
     [EvSecret
        "projects/fake_project_id/secrets/vgm-secrets-powerbi-migration-tenant-creds/versions/latest";
      EvToken (fake_tenant "vgm");
      EvGroups "fake_token_vgm";
      EvReports "fake_token_vgm" "source_workspace_id";
      EvPrint (MsgSourceCount "fake_workspace" 2);
      EvToken (fake_tenant "ft");
      EvGroups "fake_token_ft";
      EvReports "fake_token_ft" "target_workspace_id";
      EvPrint (MsgDestCount "fake_workspace" 0);
      EvPrint (MsgStarted "Report 1");
      EvPrint (MsgReportId "1");
      EvExport "fake_token_vgm" "source_workspace_id" "1"]).
Proof. vm_compute. reflexivity. Qed.

(** C3 (catalog-listing errors), evaluated.  A listing answered with status
    500 makes [get_reports] print the error and return [None]; [main] then
    takes [len] of it (source side) or iterates over it (destination side),
    and the run ends with a [TypeError] before any report is looked at. *)
Theorem listing_error_ends_the_run :
  main (fixture_world fx_source_listing_error) test_env []
  = (Raise (TypeError "object of type 'NoneType' has no len()"),
     [EvSecret
        "projects/fake_project_id/secrets/vgm-secrets-powerbi-migration-tenant-creds/versions/latest";
      EvToken (fake_tenant "vgm");
      EvGroups "fake_token_vgm";
      EvReports "fake_token_vgm" "source_workspace_id";
      EvPrint (MsgListError 500 "source_workspace_id")])
  /\
  main (fixture_world fx_destination_listing_error) test_env []
  = (Raise (TypeError "'NoneType' object is not iterable"),
     [EvSecret
        "projects/fake_project_id/secrets/vgm-secrets-powerbi-migration-tenant-creds/versions/latest";
      EvToken (fake_tenant "vgm");
      EvGroups "fake_token_vgm";
      EvReports "fake_token_vgm" "source_workspace_id";
      EvPrint (MsgSourceCount "fake_workspace" 1);
      EvToken (fake_tenant "ft");
      EvGroups "fake_token_ft";
      EvReports "fake_token_ft" "target_workspace_id";
      EvPrint (MsgListError 500 "target_workspace_id")]).
Proof. split; vm_compute; reflexivity. Qed.


(** C10 as stated fails twice over.  In both runs the export of the first
    report returns non-empty content, yet no "Successful" line is printed
    and no record is appended, because [main] catches nothing: in the first
    the archival store raises and the run ends at the store; in the second
    the import is answered without a body, [import_report] raises instead
    of returning, and the run ends at the import. *)
Lemma success_line_needs_store_and_import_to_return :
  main (with_store (Raise storage_unavailable)
          (fixture_world fx_duplicate_names))
    test_env []
  = (Raise storage_unavailable,
     [EvSecret
        "projects/fake_project_id/secrets/vgm-secrets-powerbi-migration-tenant-creds/versions/latest";
      EvToken (fake_tenant "vgm");
      EvGroups "fake_token_vgm";
      EvReports "fake_token_vgm" "source_workspace_id";
      EvPrint (MsgSourceCount "fake_workspace" 2);
      EvToken (fake_tenant "ft");
      EvGroups "fake_token_ft";
      EvReports "fake_token_ft" "target_workspace_id";
      EvPrint (MsgDestCount "fake_workspace" 0);
      EvPrint (MsgStarted "Report 1");
      EvPrint (MsgReportId "1");
      EvExport "fake_token_vgm" "source_workspace_id" "1";
      EvUpload (Some "fake_bucket") "fake_directory/Report 1.pbix"
        fake_report_content])
  /\
  migrate_report (fixture_world fx_import_rejected_without_body) test_env
    "fake_token_vgm" (Some "source_workspace_id") "fake_token_ft"
    (Some "target_workspace_id") (by_name []) (mkReport "1" "Report 1") [] []
  = (Raise (DecodeError "Expecting value"),
     [EvPrint (MsgStarted "Report 1");
      EvPrint (MsgReportId "1");
      EvExport "fake_token_vgm" "source_workspace_id" "1";
      EvUpload (Some "fake_bucket") "fake_directory/Report 1.pbix"
        fake_report_content;
      EvPrint (MsgUploaded "Report 1" "fake_directory/Report 1.pbix");
      EvImport "fake_token_ft" "target_workspace_id" "Report 1"
        fake_report_content]).
Proof. split; vm_compute; reflexivity. Qed.

(** * The theorems at the fixtures *)

Lemma ignored_report_is_never_transferred_witness :
  migrate_report (fixture_world fx_skips) test_env "fake_token_vgm"
    (Some "source_workspace_id") "fake_token_ft" (Some "target_workspace_id")
    (by_name (fx_destination fx_skips)) (mkReport "1" "ignore_report_1")
    (fx_destination fx_skips) []
  = (Ok (fx_destination fx_skips), [])
  /\
  migrate_reports (fixture_world fx_skips) test_env "fake_token_vgm"
    (Some "source_workspace_id") "fake_token_ft" (Some "target_workspace_id")
    (by_name (fx_destination fx_skips))
    ([] ++ mkReport "1" "ignore_report_1" ::
       [mkReport "2" "report_"; mkReport "3" "Report 3";
        mkReport "4" "Report 4"])
    (fx_destination fx_skips) []
  = migrate_reports (fixture_world fx_skips) test_env "fake_token_vgm"
      (Some "source_workspace_id") "fake_token_ft"
      (Some "target_workspace_id") (by_name (fx_destination fx_skips))
      ([] ++ [mkReport "2" "report_"; mkReport "3" "Report 3";
              mkReport "4" "Report 4"])
      (fx_destination fx_skips) [].
Proof.
  apply (ignored_report_is_never_transferred (fixture_world fx_skips) test_env
           "fake_token_vgm" (Some "source_workspace_id") "fake_token_ft"
           (Some "target_workspace_id") (by_name (fx_destination fx_skips))
           ["ignore_report_1"; "ignore_report_2"]).
  - reflexivity.
  - simpl. left.
Defined.

Lemma substring_of_ignore_text_is_skipped_silently_witness :
  ~ In "report_" ["ignore_report_1"; "ignore_report_2"] /\
  migrate_report (fixture_world fx_skips) test_env "fake_token_vgm"
    (Some "source_workspace_id") "fake_token_ft" (Some "target_workspace_id")
    (by_name (fx_destination fx_skips)) (mkReport "2" "report_")
    (fx_destination fx_skips) []
  = (Ok (fx_destination fx_skips), []).
Proof.
  split.
  - simpl. intros [H|[H|[]]]; discriminate H.
  - apply (substring_of_ignore_text_is_skipped_silently
             (fixture_world fx_skips) test_env "fake_token_vgm"
             (Some "source_workspace_id") "fake_token_ft"
             (Some "target_workspace_id") (by_name (fx_destination fx_skips))
             (ignore_config ["ignore_report_1"; "ignore_report_2"])
             ("[" +:+ dquote +:+ "ignore_")
             ("1" +:+ dquote +:+ ", " +:+ quoted "ignore_report_2" +:+ "]")
             (mkReport "2" "report_") []).
    + reflexivity.
    + reflexivity.
Defined.

Lemma present_in_destination_is_skipped_witness :
  migrate_reports (fixture_world fx_skips) test_env "fake_token_vgm"
    (Some "source_workspace_id") "fake_token_ft" (Some "target_workspace_id")
    (by_name [mkReport "30" "Report 3"])
    [mkReport "3" "Report 3"; mkReport "4" "Report 4"]
    [mkReport "30" "Report 3"] []
  = after [EvPrint (MsgAlreadyExists "Report 3")]
      (migrate_reports (fixture_world fx_skips) test_env "fake_token_vgm"
         (Some "source_workspace_id") "fake_token_ft"
         (Some "target_workspace_id") (by_name [mkReport "30" "Report 3"])
         [mkReport "4" "Report 4"] [mkReport "30" "Report 3"]
         ([] ++ [EvPrint (MsgAlreadyExists "Report 3")])).
Proof.
  apply (present_in_destination_is_skipped (fixture_world fx_skips) test_env
           "fake_token_vgm" (Some "source_workspace_id") "fake_token_ft"
           (Some "target_workspace_id") [mkReport "30" "Report 3"]
           (ignore_config ["ignore_report_1"; "ignore_report_2"])
           (mkReport "3" "Report 3")).
  - reflexivity.
  - reflexivity.
  - exists (mkReport "30" "Report 3"). split; [left|reflexivity].
Defined.

Lemma export_failure_handling_witness :
  migrate_reports (fixture_world fx_export_empty) test_env "fake_token_vgm"
    (Some "source_workspace_id") "fake_token_ft" (Some "target_workspace_id")
    (by_name []) [mkReport "1" "Report 1"; mkReport "2" "Report 2"] [] []
  = after
      [EvPrint (MsgStarted "Report 1"); EvPrint (MsgReportId "1");
       EvExport "fake_token_vgm" "source_workspace_id" "1";
       EvPrint (MsgFailed "Report 1"); EvPrint MsgTook]
      (migrate_reports (fixture_world fx_export_empty) test_env
         "fake_token_vgm" (Some "source_workspace_id") "fake_token_ft"
         (Some "target_workspace_id") (by_name []) [mkReport "2" "Report 2"]
         []
         [EvPrint (MsgStarted "Report 1"); EvPrint (MsgReportId "1");
          EvExport "fake_token_vgm" "source_workspace_id" "1";
          EvPrint (MsgFailed "Report 1"); EvPrint MsgTook])
  /\
  migrate_reports (fixture_world fx_export_error) test_env "fake_token_vgm"
    (Some "source_workspace_id") "fake_token_ft" (Some "target_workspace_id")
    (by_name []) [mkReport "1" "Report 1"; mkReport "2" "Report 2"] [] []
  = (Raise (HTTPError 500),
     [EvPrint (MsgStarted "Report 1"); EvPrint (MsgReportId "1");
      EvExport "fake_token_vgm" "source_workspace_id" "1"]).
Proof.
  split.
  - apply (proj1 (export_failure_handling (fixture_world fx_export_empty)
                    test_env "fake_token_vgm" (Some "source_workspace_id")
                    "fake_token_ft" (Some "target_workspace_id") (by_name [])
                    (ignore_config ["ignore_report_1"; "ignore_report_2"])
                    (mkReport "1" "Report 1") [mkReport "2" "Report 2"] [] []
                    eq_refl eq_refl eq_refl)
             (mkResponse 200%Z [])); reflexivity.
  - apply (proj1 (proj2 (export_failure_handling
                    (fixture_world fx_export_error)
                    test_env "fake_token_vgm" (Some "source_workspace_id")
                    "fake_token_ft" (Some "target_workspace_id") (by_name [])
                    (ignore_config ["ignore_report_1"; "ignore_report_2"])
                    (mkReport "1" "Report 1") [mkReport "2" "Report 2"] [] []
                    eq_refl eq_refl eq_refl))
             (mkResponse 500%Z [])); reflexivity.
Defined.


Lemma success_is_recorded_whatever_the_import_returned_witness :
  migrate_report (fixture_world fx_import_rejected) test_env
    "fake_token_vgm" (Some "source_workspace_id") "fake_token_ft"
    (Some "target_workspace_id") (by_name []) (mkReport "1" "Report 1") []
    []
  = (Ok ([] ++ [mkReport "1" "Report 1"]),
     (([EvPrint (MsgStarted "Report 1"); EvPrint (MsgReportId "1")] ++
       [EvExport "fake_token_vgm" "source_workspace_id" "1"]) ++
      [EvUpload (Some "fake_bucket") "fake_directory/Report 1.pbix"
         fake_report_content;
       EvPrint (MsgUploaded "Report 1" "fake_directory/Report 1.pbix")]) ++
     [EvImport "fake_token_ft" "target_workspace_id" "Report 1"
        fake_report_content;
      EvPrint (MsgImportBody fake_error_descriptor)] ++
     [EvPrint (MsgSuccessful None); EvPrint MsgTook]).
Proof.
  apply (success_is_recorded_whatever_the_import_returned
           (fixture_world fx_import_rejected) test_env "fake_token_vgm"
           (Some "source_workspace_id") "fake_token_ft"
           (Some "target_workspace_id") (by_name [])
           (ignore_config ["ignore_report_1"; "ignore_report_2"])
           (mkReport "1" "Report 1") []
           (mkResponse 200%Z fake_report_content)
           eq_refl eq_refl eq_refl eq_refl eq_refl eq_refl eq_refl
           [] None
           [EvImport "fake_token_ft" "target_workspace_id" "Report 1"
              fake_report_content;
            EvPrint (MsgImportBody fake_error_descriptor)]).
  vm_compute. reflexivity.
Defined.

Lemma archive_precedes_import_witness :
  exists t0 report response,
    report ∈ [mkReport "1" "Report 1"; mkReport "2" "Report 2"] /\
    "Report 1" = name report /\
    [EvPrint (MsgStarted "Report 1"); EvPrint (MsgReportId "1");
     EvExport "fake_token_vgm" "source_workspace_id" "1";
     EvUpload (Some "fake_bucket") "fake_directory/Report 1.pbix"
       fake_report_content;
     EvPrint (MsgUploaded "Report 1" "fake_directory/Report 1.pbix")]
    = t0 ++
      [EvExport "fake_token_vgm" "source_workspace_id" (id report);
       EvUpload (Some "fake_bucket") "fake_directory/Report 1.pbix"
         fake_report_content;
       EvPrint (MsgUploaded "Report 1" "fake_directory/Report 1.pbix")] /\
    get_export (fixture_world fx_import_rejected) ([] ++ t0) "fake_token_vgm"
      "source_workspace_id" (id report) = Ok response /\
    content response = fake_report_content /\
    upload_from_string (fixture_world fx_import_rejected)
      ([] ++ t0 ++
       [EvExport "fake_token_vgm" "source_workspace_id" (id report)])
      (Some "fake_bucket") "fake_directory/Report 1.pbix" fake_report_content
    = Ok tt.
Proof.
  apply (archive_precedes_import (fixture_world fx_import_rejected) test_env
           "fake_token_vgm" (Some "source_workspace_id") "fake_token_ft"
           (Some "target_workspace_id") (by_name [])
           [mkReport "1" "Report 1"; mkReport "2" "Report 2"] [] []
           [EvPrint (MsgStarted "Report 1"); EvPrint (MsgReportId "1");
            EvExport "fake_token_vgm" "source_workspace_id" "1";
            EvUpload (Some "fake_bucket") "fake_directory/Report 1.pbix"
              fake_report_content;
            EvPrint (MsgUploaded "Report 1" "fake_directory/Report 1.pbix")]
           [EvPrint (MsgImportBody fake_error_descriptor);
            EvPrint (MsgSuccessful None); EvPrint MsgTook;
            EvPrint (MsgStarted "Report 2"); EvPrint (MsgReportId "2");
            EvExport "fake_token_vgm" "source_workspace_id" "2";
            EvUpload (Some "fake_bucket") "fake_directory/Report 2.pbix"
              fake_report_content;
            EvPrint (MsgUploaded "Report 2" "fake_directory/Report 2.pbix");
            EvImport "fake_token_ft" "target_workspace_id" "Report 2"
              fake_report_content;
            EvPrint (MsgImportBody fake_error_descriptor);
            EvPrint (MsgSuccessful None); EvPrint MsgTook]
           "fake_token_ft" "target_workspace_id" "Report 1"
           fake_report_content).
  vm_compute. reflexivity.
Defined.

(** * More of main.py *)

(** ** One iteration, case by case *)

Section OutcomeFacts.

Variable w : World.
Variable env : Env.
Variable token_vgm : string.
Variable source_workspace_id : option string.
Variable token_ft : string.
Variable target_workspace_id : option string.
Variable dst_by_name : gmap string Report.

Local Abbreviation body :=
  (migrate_report w env token_vgm source_workspace_id token_ft
     target_workspace_id dst_by_name).
Local Abbreviation loop :=
  (migrate_reports w env token_vgm source_workspace_id token_ft
     target_workspace_id dst_by_name).
Local Abbreviation ends :=
  (outcome w env token_vgm source_workspace_id token_ft target_workspace_id
     dst_by_name).

Lemma onto_Ok_nil dst tr : onto dst (Ok [], tr) = (Ok dst, tr).
Proof. unfold onto. simpl. rewrite app_nil_r. reflexivity. Qed.

(** Every iteration ends in one of the ten ways, and the list it starts
    from only shows in the list it returns. *)
Lemma body_outcome report h :
  exists r tr,
    ends report h r tr /\ forall dst, body report dst h = onto dst (r, tr).
Proof.
  destruct (IGNORE_REPORTS env) as [ign|] eqn:Hign.
  2:{ do 2 eexists. split; [apply out_unset, Hign|]. intros dst.
      unfold migrate_report. rewrite Hign. reflexivity. }
  destruct (str_in (name report) ign) eqn:Hni.
  { do 2 eexists. split; [eapply out_ignored; eassumption|]. intros dst.
    rewrite onto_Ok_nil. apply (body_ignored _ _ _ _ _ _ _ _ _ _ ign);
      assumption. }
  destruct (dst_by_name !! name report) as [d|] eqn:Hnp.
  { do 2 eexists. split.
    - eapply out_present; try eassumption. rewrite Hnp; eauto.
    - intros dst. rewrite onto_Ok_nil.
      apply (body_present _ _ _ _ _ _ _ _ _ _ ign); try assumption.
      rewrite Hnp; eauto. }
  assert (Hg : passes_guards env dst_by_name report) by (exists ign; auto).
  destruct (export_reply w token_vgm source_workspace_id report h)
    as [response|e] eqn:He.
  2:{ do 2 eexists. split; [eapply out_export_raised; eassumption|].
      intros dst. apply (body_export_raises _ _ _ _ _ _ _ _ _ _ ign e);
        assumption. }
  destruct (is_error_status (status_code response)) eqn:Hs.
  { do 2 eexists. split; [eapply out_export_refused; eassumption|].
    intros dst.
    apply (body_export_error_status _ _ _ _ _ _ _ _ _ _ ign response);
      assumption. }
  destruct (truthy (content response)) eqn:Hc.
  2:{ assert (Hc' : content response = [])
        by (destruct (content response); [reflexivity|discriminate]).
      do 2 eexists. split; [eapply out_export_empty; eassumption|].
      intros dst. rewrite onto_Ok_nil.
      apply (body_export_empty _ _ _ _ _ _ _ _ _ _ ign response);
        assumption. }
  destruct (store_reply w env token_vgm source_workspace_id report h
              (content response)) as [[]|e] eqn:Hu.
  2:{ do 2 eexists. split; [eapply out_store_raised; eassumption|].
      intros dst.
      apply (body_upload_raises _ _ _ _ _ _ _ _ _ _ ign response e);
        assumption. }
  destruct (import_reply w env token_vgm source_workspace_id token_ft
              target_workspace_id report h (content response))
    as [iresp|e] eqn:Hi.
  2:{ do 2 eexists. split; [eapply out_import_raised; eassumption|].
      intros dst.
      apply (body_import_raises _ _ _ _ _ _ _ _ _ _ ign response e);
        assumption. }
  destruct (json_import w (content iresp)) as [decoded|e] eqn:Hj.
  - do 2 eexists. split; [eapply out_imported; eassumption|].
    intros dst.
    apply (body_imported _ _ _ _ _ _ _ _ _ _ ign response iresp decoded);
      assumption.
  - do 2 eexists. split; [eapply out_import_undecoded; eassumption|].
    intros dst.
    apply (body_import_undecoded _ _ _ _ _ _ _ _ _ _ ign response iresp e);
      assumption.
Qed.

Lemma imported_names_app (t1 t2 : list event) :
  imported_names (t1 ++ t2) = imported_names t1 ++ imported_names t2.
Proof.
  induction t1 as [|e t1 IH]; [reflexivity|].
  destruct e; simpl; rewrite IH; reflexivity.
Qed.

Lemma onto_after dst added t (x : res (list Report) * list event) :
  onto dst (after t (onto added x)) = after t (onto (dst ++ added) x).
Proof.
  destruct x as [[l|e] t']; unfold onto, after; simpl; [|reflexivity].
  rewrite app_assoc. reflexivity.
Qed.

(** The loop, one iteration unfolded along its outcome. *)
Lemma loop_cons_outcome report rest dst h r tr :
  (forall dst, body report dst h = onto dst (r, tr)) ->
  loop (report :: rest) dst h =
  match r with
  | Ok added => after tr (loop rest (dst ++ added) (h ++ tr))
  | Raise e => (Raise e, tr)
  end.
Proof.
  intros Hb. destruct r as [added|e].
  - apply loop_cons_Ok. apply Hb.
  - apply loop_cons_Raise. apply Hb.
Qed.

(** ** What the loop keeps *)

(** X1 (the list is write-only).  The loop never reads the in-memory
    destination list: started from any list, it emits the events of the
    run started from the empty list, raises when that run raises, and
    returns the list it started from followed by what that run returns. *)
Theorem dst_reports_dict_is_never_read (src dst : list Report)
    (h : list event) :
  loop src dst h = onto dst (loop src [] h).
Proof.
  revert dst h. induction src as [|report rest IH]; intros dst h.
  - simpl. unfold ret. rewrite onto_Ok_nil. reflexivity.
  - destruct (body_outcome report h) as (r & tr & _ & Hb).
    rewrite !(loop_cons_outcome report rest _ h r tr Hb).
    destruct r as [added|e]; [|reflexivity].
    rewrite (IH (dst ++ added)), (IH ([] ++ added)), onto_after.
    reflexivity.
Qed.

Lemma outcome_appends report h r tr added :
  ends report h r tr -> r = Ok added ->
  added `sublist_of` [report] /\ imported_names tr = List.map name added.
Proof.
  intros Ho Hr. destruct Ho; try discriminate Hr;
    injection Hr as <-;
    unfold ev_import_called, ev_archived, ev_exported, ev_started;
    try (split; [apply sublist_nil_l|reflexivity]).
  split; [reflexivity|].
  destruct (bool_decide (status_code iresp = 202%Z)); reflexivity.
Qed.

(** X2 (what the list records).  When the loop returns, the list it returns
    is the list it started from followed by the source reports for which
    the import call was made, once per call, in catalog order. *)
Theorem returned_list_records_the_imports (src dst dst' : list Report)
    (h tr : list event) :
  loop src dst h = (Ok dst', tr) ->
  exists added,
    dst' = dst ++ added /\
    added `sublist_of` src /\
    imported_names tr = List.map name added.
Proof.
  revert dst dst' h tr.
  induction src as [|report rest IH]; intros dst dst' h tr Hrun.
  - simpl in Hrun. injection Hrun as <- <-. exists [].
    rewrite app_nil_r. auto using sublist_nil_l.
  - destruct (body_outcome report h) as (r & t1 & Ho & Hb).
    rewrite (loop_cons_outcome report rest _ h r t1 Hb) in Hrun.
    destruct r as [a1|e]; [|discriminate Hrun].
    destruct (outcome_appends _ _ _ _ a1 Ho eq_refl) as [Hsub Hnames].
    destruct (loop rest (dst ++ a1) (h ++ t1)) as [r2 t2] eqn:Hrest.
    unfold after in Hrun. simpl in Hrun. injection Hrun as -> <-.
    destruct (IH _ _ _ _ Hrest) as (a2 & -> & Hsub2 & Hnames2).
    exists (a1 ++ a2). rewrite app_assoc. split; [reflexivity|]. split.
    + apply (sublist_app a1 [report] a2 rest); assumption.
    + rewrite imported_names_app, Hnames, Hnames2, List.map_app.
      reflexivity.
Qed.

Lemma outcome_calls report h r tr :
  ends report h r tr ->
  length (List.filter is_import tr) <= length (List.filter is_upload tr) /\
  length (List.filter is_upload tr) <= length (List.filter is_export tr) /\
  length (List.filter is_export tr) <= 1.
Proof.
  intros Ho. destruct Ho;
    unfold ev_import_called, ev_archived, ev_exported, ev_started;
    try destruct (bool_decide (status_code iresp = 202%Z));
    simpl; lia.
Qed.

(** X3 (no retries).  In any run of the loop there are at most as many
    export calls as source reports, at most as many stores as exports, and
    at most as many imports as stores. *)
Theorem no_call_is_repeated (src dst : list Report) (h : list event) :
  length (List.filter is_import (snd (loop src dst h)))
  <= length (List.filter is_upload (snd (loop src dst h))) /\
  length (List.filter is_upload (snd (loop src dst h)))
  <= length (List.filter is_export (snd (loop src dst h))) /\
  length (List.filter is_export (snd (loop src dst h))) <= length src.
Proof.
  revert dst h. induction src as [|report rest IH]; intros dst h.
  - simpl. lia.
  - destruct (body_outcome report h) as (r & t1 & Ho & Hb).
    rewrite (loop_cons_outcome report rest _ h r t1 Hb).
    pose proof (outcome_calls _ _ _ _ Ho) as (H1 & H2 & H3).
    destruct r as [a1|e]; simpl; [|lia].
    specialize (IH (dst ++ a1) (h ++ t1)).
    rewrite !List.filter_app, !length_app. lia.
Qed.

Lemma outcome_export report h r tr tok grp rid :
  ends report h r tr ->
  In (EvExport tok grp rid) tr ->
  tok = token_vgm /\ grp = fstr source_workspace_id /\ rid = id report /\
  passes_guards env dst_by_name report.
Proof.
  intros Ho Hin.
  destruct Ho;
    unfold ev_import_called, ev_archived, ev_exported, ev_started in Hin;
    try destruct (bool_decide (status_code iresp = 202%Z));
    simpl in Hin;
    repeat match goal with
           | H : _ \/ _ |- _ => destruct H as [H|H]
           | H : False |- _ => destruct H
           | H : EvExport _ _ _ = EvExport _ _ _ |- _ =>
               injection H as <- <- <-
           | H : _ = EvExport _ _ _ |- _ => discriminate H
           end;
    auto.
Qed.

(** X4 (exports respect both guards).  Every export call of the loop is
    made with the source token and workspace, for a report of the source
    catalog whose name is not found in the IGNORE_REPORTS text and is no
    key of the destination lookup. *)
Theorem every_export_passed_both_guards (src dst : list Report)
    (h : list event) (tok grp rid : string) :
  In (EvExport tok grp rid) (snd (loop src dst h)) ->
  exists report ignore_reports,
    report ∈ src /\ rid = id report /\
    tok = token_vgm /\ grp = fstr source_workspace_id /\
    IGNORE_REPORTS env = Some ignore_reports /\
    str_in (name report) ignore_reports = false /\
    dst_by_name !! name report = None.
Proof.
  revert dst h. induction src as [|report rest IH]; intros dst h Hin.
  - destruct Hin.
  - destruct (body_outcome report h) as (r & t1 & Ho & Hb).
    rewrite (loop_cons_outcome report rest _ h r t1 Hb) in Hin.
    assert (Hhere : In (EvExport tok grp rid) t1 ->
                    exists report0 ignore_reports,
                      report0 ∈ report :: rest /\ rid = id report0 /\
                      tok = token_vgm /\ grp = fstr source_workspace_id /\
                      IGNORE_REPORTS env = Some ignore_reports /\
                      str_in (name report0) ignore_reports = false /\
                      dst_by_name !! name report0 = None).
    { intros Ht1.
      destruct (outcome_export _ _ _ _ _ _ _ Ho Ht1)
        as (-> & -> & -> & ign & Hign & Hni & Hnp).
      exists report, ign. repeat split; try assumption. left. }
    destruct r as [a1|e]; simpl in Hin; [|auto].
    apply in_app_or in Hin as [Ht1|Hrest]; [auto|].
    destruct (IH _ _ Hrest) as (report0 & ign & Hin0 & Hrest0).
    exists report0, ign. split; [right; exact Hin0|exact Hrest0].
Qed.

End OutcomeFacts.

(** ** Edges of the loop *)

Section LoopEdges.

Variable w : World.
Variable env : Env.
Variable token_vgm : string.
Variable source_workspace_id : option string.
Variable token_ft : string.
Variable target_workspace_id : option string.
Variable dst_by_name : gmap string Report.

Local Abbreviation loop :=
  (migrate_reports w env token_vgm source_workspace_id token_ft
     target_workspace_id dst_by_name).

(** X5 (a failing store).  When the archival store raises for a report, the
    import call for that report is not made, nothing is logged after the
    store call, and the exception ends the run: the remaining reports are
    not looked at. *)
Theorem store_failure_ends_the_run (ignore_reports : string)
    (report : Report) (rest dst : list Report) (h : list event)
    (response : Response) (e : exn) :
  IGNORE_REPORTS env = Some ignore_reports ->
  str_in (name report) ignore_reports = false ->
  dst_by_name !! name report = None ->
  get_export w
    (h ++ [EvPrint (MsgStarted (name report));
           EvPrint (MsgReportId (id report))])
    token_vgm (fstr source_workspace_id) (id report) = Ok response ->
  is_error_status (status_code response) = false ->
  truthy (content response) = true ->
  upload_from_string w
    (h ++ [EvPrint (MsgStarted (name report));
           EvPrint (MsgReportId (id report));
           EvExport token_vgm (fstr source_workspace_id) (id report)])
    (BUCKET_NAME env) (destination_blob_name env (name report))
    (content response) = Raise e ->
  loop (report :: rest) dst h
  = (Raise e,
     [EvPrint (MsgStarted (name report)); EvPrint (MsgReportId (id report));
      EvExport token_vgm (fstr source_workspace_id) (id report);
      EvUpload (BUCKET_NAME env) (destination_blob_name env (name report))
        (content response)]).
Proof.
  intros Hign Hni Hnp He Hs Hc Hu. apply loop_cons_Raise.
  apply (body_upload_raises _ _ _ _ _ _ _ _ _ _ ignore_reports response e);
    assumption.
Qed.

(** X6 (IGNORE_REPORTS unset).  With the variable unset, the membership
    test of line 158 raises for the first report of a non-empty catalog:
    the run ends with a [TypeError] before anything is printed or called
    for any report. *)
Theorem unset_ignore_list_ends_the_run (report : Report)
    (rest dst : list Report) (h : list event) :
  IGNORE_REPORTS env = None ->
  loop (report :: rest) dst h
  = (Raise (TypeError "argument of type 'NoneType' is not iterable"), []).
Proof.
  intros Hign. apply loop_cons_Raise. unfold migrate_report.
  rewrite Hign. reflexivity.
Qed.

Lemma str_in_empty (s : string) : str_in "" s = true.
Proof. apply str_in_spec. exists "", s. reflexivity. Qed.

(** X7 (a report without a name).  The empty string occurs in every
    string: whatever IGNORE_REPORTS is set to, a report whose name is empty
    is skipped without any event, as if it were not in the catalog. *)
Theorem empty_name_is_always_ignored (ignore_reports : string)
    (report : Report) (rest dst : list Report) (h : list event) :
  IGNORE_REPORTS env = Some ignore_reports ->
  name report = "" ->
  loop (report :: rest) dst h = loop rest dst h.
Proof.
  intros Hign Hname.
  rewrite (loop_cons_Ok _ _ _ _ _ _ _ _ _ _ _ dst []).
  - rewrite after_nil, app_nil_r. reflexivity.
  - apply (body_ignored _ _ _ _ _ _ _ _ _ _ ignore_reports); [exact Hign|].
    rewrite Hname. apply str_in_empty.
Qed.

(** X18 (nothing left to migrate).  When every report of the source
    catalog is ignored or already named in the destination lookup, as on a
    second run over a migrated workspace, the loop makes no call at all: it
    prints one "already exists" line per report that is not ignored and
    returns the list unchanged. *)
Theorem migrated_catalog_is_left_alone (ignore_reports : string)
    (src dst : list Report) (h : list event) :
  IGNORE_REPORTS env = Some ignore_reports ->
  (forall report,
      report ∈ src ->
      str_in (name report) ignore_reports = true \/
      is_Some (dst_by_name !! name report)) ->
  loop src dst h
  = (Ok dst,
     flat_map
       (fun report =>
          if str_in (name report) ignore_reports then []
          else [EvPrint (MsgAlreadyExists (name report))])
       src).
Proof.
  intros Hign. revert h. induction src as [|report rest IH]; intros h Hall.
  - reflexivity.
  - assert (Hrest : forall r, r ∈ rest ->
                      str_in (name r) ignore_reports = true \/
                      is_Some (dst_by_name !! name r))
      by (intros r Hr; apply Hall; right; exact Hr).
    cbn [flat_map].
    destruct (str_in (name report) ignore_reports) eqn:Hni.
    + rewrite (loop_cons_Ok _ _ _ _ _ _ _ _ _ _ _ dst []).
      * rewrite after_nil, app_nil_r. apply IH, Hrest.
      * apply (body_ignored _ _ _ _ _ _ _ _ _ _ ignore_reports); assumption.
    + rewrite (loop_cons_Ok _ _ _ _ _ _ _ _ _ _ _ dst
                 [EvPrint (MsgAlreadyExists (name report))]).
      * rewrite (IH _ Hrest). reflexivity.
      * apply (body_present _ _ _ _ _ _ _ _ _ _ ignore_reports);
          try assumption.
        destruct (Hall report) as [Hi|Hp]; [left|congruence|exact Hp].
Qed.

End LoopEdges.

(** ** The functions around the loop *)

(** X19 (WORKSPACE_NAME unset).  With the variable unset, the comparison
    of line 68 holds for no entry: [get_workspace] returns [None] whatever
    the listing holds. *)
Theorem unset_workspace_name_finds_nothing (w : World) (token : string)
    (h : list event) (response : Response) (listing : list Workspace) :
  get_groups w h token = Ok response ->
  is_error_status (status_code response) = false ->
  json_groups w (content response) = Ok listing ->
  get_workspace w token None h = (Ok None, [EvGroups token]).
Proof.
  intros Hg Hs Hj. rewrite get_workspace_run, Hg, Hs, Hj.
  rewrite filter_no_match; [reflexivity|].
  intros y _. apply bool_decide_eq_false_2. discriminate.
Qed.

Lemma foldl_by_name_other (post : list Report) (d : gmap string Report)
    (k : string) :
  (forall y, y ∈ post -> name y <> k) ->
  foldl (fun d report => <[name report := report]> d) d post !! k = d !! k.
Proof.
  revert d. induction post as [|y post IH]; intros d Hpost; [reflexivity|].
  simpl. rewrite IH.
  - apply lookup_insert_ne. apply Hpost. left.
  - intros z Hz. apply Hpost. right. exact Hz.
Qed.

(** X10 (the destination lookup).  In the dictionary built from a catalog,
    a name is bound to the last report of the catalog that carries it, and
    a name that no report carries is not bound. *)
Theorem by_name_last_wins (reports : list Report) :
  (forall pre r post,
      reports = pre ++ r :: post ->
      (forall y, y ∈ post -> name y <> name r) ->
      by_name reports !! name r = Some r)
  /\
  (forall k,
      (forall y, y ∈ reports -> name y <> k) ->
      by_name reports !! k = None).
Proof.
  split.
  - intros pre r post -> Hpost. unfold by_name.
    rewrite foldl_app. simpl. rewrite foldl_by_name_other by exact Hpost.
    apply lookup_insert_eq.
  - intros k Hk. unfold by_name. rewrite foldl_by_name_other by exact Hk.
    apply lookup_empty.
Qed.

Lemma list_ascii_of_append (s t : string) :
  list_ascii_of_string (s +:+ t)
  = list_ascii_of_string s ++ list_ascii_of_string t.
Proof.
  induction s as [|c s IH]; [reflexivity|].
  rewrite append_cons. simpl. rewrite IH. reflexivity.
Qed.

Lemma append_inv_tail (s t u : string) : s +:+ u = t +:+ u -> s = t.
Proof.
  intros Heq. apply (f_equal list_ascii_of_string) in Heq.
  rewrite !list_ascii_of_append in Heq. apply app_inv_tail in Heq.
  rewrite <- (string_of_list_ascii_of_string s),
    <- (string_of_list_ascii_of_string t), Heq.
  reflexivity.
Qed.

Lemma append_inv_head (s t u : string) : u +:+ s = u +:+ t -> s = t.
Proof.
  induction u as [|c u IH]; [auto|].
  rewrite !append_cons. intros Heq. injection Heq as Heq. auto.
Qed.

(** X11 (object paths).  Reports of different names are archived under
    different object paths, whatever the configured directory. *)
Theorem destination_blob_name_inj (env : Env) (name1 name2 : string) :
  name1 <> name2 ->
  destination_blob_name env name1 <> destination_blob_name env name2.
Proof.
  unfold destination_blob_name. intros Hne Heq. apply Hne.
  apply append_inv_head, append_inv_head in Heq.
  apply append_inv_tail in Heq. exact Heq.
Qed.

(** ** The whole of [main] *)

Lemma bind_trace_prefix {A B} (m : M A) (f : A -> M B) h :
  exists tr, snd (bind m f h) = snd (m h) ++ tr.
Proof.
  unfold bind. destruct (m h) as [[a|e] t1].
  - destruct (f a (h ++ t1)) as [r t2]. exists t2. reflexivity.
  - exists []. simpl. rewrite app_nil_r. reflexivity.
Qed.

Section MainSetup.

Variable w : World.
Variable env : Env.
Variable h : list event.

Local Abbreviation secret_resource :=
  ("projects/" +:+ fstr (PROJECT_ID env) +:+
   "/secrets/vgm-secrets-powerbi-migration-tenant-creds/versions/latest").

Lemma main_secret_request :
  get_secret w env "vgm-secrets-powerbi-migration-tenant-creds" h
  = (access_secret_version w h secret_resource, [EvSecret secret_resource]).
Proof. reflexivity. Qed.

(** X12 (secret resolution).  [main] asks for the latest version of the
    secret [vgm-secrets-powerbi-migration-tenant-creds] of the configured
    project; when the secret store raises, or the payload does not decode,
    the exception ends the run before any request is sent. *)
Theorem secret_failure_ends_the_run (e : exn) :
  (access_secret_version w h secret_resource = Raise e ->
   main w env h = (Raise e, [EvSecret secret_resource]))
  /\
  (forall secret_string,
      access_secret_version w h secret_resource = Ok secret_string ->
      json_loads w secret_string = Raise e ->
      main w env h = (Raise e, [EvSecret secret_resource])).
Proof.
  split.
  - intros Hs. unfold main. apply bind_Raise.
    rewrite main_secret_request, Hs. reflexivity.
  - intros s Hs Hj. unfold main.
    erewrite bind_Ok by (rewrite main_secret_request, Hs; reflexivity).
    erewrite bind_Raise by (rewrite Hj; reflexivity).
    reflexivity.
Qed.

Variable secret_string : string.
Variable secrets : Secrets.
Hypothesis Hsecret :
  access_secret_version w h secret_resource = Ok secret_string.
Hypothesis Hdecode : json_loads w secret_string = Ok secrets.

Lemma main_after_secret :
  main w env h =
  after [EvSecret secret_resource]
    ((token_vgm <- get_access_token w (tenant_vgm_info secrets);;
      source_workspace_id <- get_workspace w token_vgm (WORKSPACE_NAME env);;
      source_reports_dict <- get_reports w token_vgm source_workspace_id;;
      n_src <- py_len source_reports_dict;;
      print (MsgSourceCount (fstr (WORKSPACE_NAME env)) n_src);;;
      token_ft <- get_access_token w (tenant_ft_info secrets);;
      target_workspace_id <- get_workspace w token_ft (WORKSPACE_NAME env);;
      dst_reports_dict <- get_reports w token_ft target_workspace_id;;
      dst_list <- py_iter dst_reports_dict;;
      n_dst <- py_len dst_reports_dict;;
      print (MsgDestCount (fstr (WORKSPACE_NAME env)) n_dst);;;
      src_list <- py_iter source_reports_dict;;
      migrate_reports w env token_vgm source_workspace_id token_ft
        target_workspace_id (by_name dst_list) src_list dst_list)
       (h ++ [EvSecret secret_resource])).
Proof.
  unfold main.
  erewrite bind_Ok by (rewrite main_secret_request, Hsecret; reflexivity).
  erewrite bind_Ok by (rewrite Hdecode; reflexivity).
  rewrite after_nil, app_nil_r. reflexivity.
Qed.

(** X13 (authentication failure).  When the token request of the source
    tenant is answered with a client or server error status, the run ends
    before any workspace is listed: when the body decodes as text, [main]
    prints the three failure lines and the HTTP error ends the run; when it
    does not, the decoding error ends the run after the first two lines. *)
Theorem authentication_failure_ends_the_run (response : Response) :
  post_token w (h ++ [EvSecret secret_resource]) (tenant_vgm_info secrets)
  = Ok response ->
  is_error_status (status_code response) = true ->
  (forall text,
      decode w (content response) = Ok text ->
      main w env h
      = (Raise (HTTPError (status_code response)),
         [EvSecret secret_resource;
          EvToken (tenant_vgm_info secrets);
          EvPrint MsgTokenFailed;
          EvPrint (MsgStatusCode (status_code response));
          EvPrint (MsgResponseContent text)]))
  /\
  (forall e,
      decode w (content response) = Raise e ->
      main w env h
      = (Raise e,
         [EvSecret secret_resource;
          EvToken (tenant_vgm_info secrets);
          EvPrint MsgTokenFailed;
          EvPrint (MsgStatusCode (status_code response))])).
Proof.
  intros Hp He.
  assert (Hs : bool_decide (status_code response = 200%Z) = false).
  { apply bool_decide_eq_false_2. intros Hs. rewrite Hs in He.
    discriminate He. }
  split.
  - intros text Hd. rewrite main_after_secret.
    erewrite bind_Raise; [reflexivity|].
    unfold get_access_token. rewrite bind_perform, Hp, Hs.
    unfold raise_for_status. rewrite He.
    unfold bind, print, perform, lift, raise, after. simpl.
    rewrite Hd. reflexivity.
  - intros e Hd. rewrite main_after_secret.
    erewrite bind_Raise; [reflexivity|].
    unfold get_access_token. rewrite bind_perform, Hp, Hs.
    unfold bind, print, perform, lift, raise, after. simpl.
    rewrite Hd. reflexivity.
Qed.

Variable token_vgm : string.
Variable token_events : list event.
Hypothesis Htoken :
  get_access_token w (tenant_vgm_info secrets)
    (h ++ [EvSecret secret_resource])
  = (Ok token_vgm, token_events).

(** X14 (workspace listing refused).  When the groups listing of the source
    tenant is answered with a client or server error status, the HTTP error
    ends the run before any catalog is listed. *)
Theorem workspace_listing_error_ends_the_run (response : Response) :
  get_groups w (h ++ [EvSecret secret_resource] ++ token_events) token_vgm
  = Ok response ->
  is_error_status (status_code response) = true ->
  main w env h
  = (Raise (HTTPError (status_code response)),
     [EvSecret secret_resource] ++ token_events ++ [EvGroups token_vgm]).
Proof.
  intros Hg He. rewrite main_after_secret.
  erewrite bind_Ok by exact Htoken.
  erewrite bind_Raise; [reflexivity|].
  rewrite get_workspace_run, <- app_assoc, Hg, He. reflexivity.
Qed.

(** X15 (workspace not found).  When no listed workspace of the source
    tenant has the configured name, [main] does not stop: its next call
    asks for the report catalog of the workspace path segment [None]. *)
Theorem missing_workspace_is_queried_as_None (response : Response)
    (listing : list Workspace) :
  get_groups w (h ++ [EvSecret secret_resource] ++ token_events) token_vgm
  = Ok response ->
  is_error_status (status_code response) = false ->
  json_groups w (content response) = Ok listing ->
  (forall y, y ∈ listing -> Some (ws_name y) <> WORKSPACE_NAME env) ->
  exists tr,
    snd (main w env h)
    = [EvSecret secret_resource] ++ token_events ++
      [EvGroups token_vgm; EvReports token_vgm "None"] ++ tr.
Proof.
  intros Hg He Hj Hnone. rewrite main_after_secret.
  erewrite bind_Ok by exact Htoken.
  erewrite bind_Ok.
  2:{ rewrite get_workspace_run, <- app_assoc, Hg, He, Hj.
      rewrite filter_no_match; [reflexivity|].
      intros y Hy. apply bool_decide_eq_false_2. apply Hnone, Hy. }
  match goal with
  | |- context [bind ?m ?f ?h0] =>
      destruct (bind_trace_prefix m f h0) as [tr Htr];
      assert (Hfirst : exists tr', snd (m h0)
                         = EvReports token_vgm "None" :: tr')
  end.
  { rewrite get_reports_run.
    destruct (get_reports_listing w _ token_vgm (fstr None)) as [r|e];
      [destruct (bool_decide (status_code r = 200%Z));
       [destruct (json_reports w (content r))|]|]; eexists;
      reflexivity. }
  destruct Hfirst as [tr' Hfirst]. rewrite Hfirst in Htr.
  exists (tr' ++ tr). unfold after. simpl. rewrite Htr. reflexivity.
Qed.

End MainSetup.

(** X17 (archive before import, whole run).  In any run of [main],
    whatever the outside answers, every import call is directly preceded by
    an export call, the store of exactly the bytes that export returned
    under [{directory}/{name}.pbix] for the name being imported, the store
    having returned, and the log line of the store: nothing outside the loop
    imports. *)
Theorem main_import_follows_archive (w : World) (env : Env)
    (h t1 t2 : list event) (tok grp nm : string) (c : bytes) :
  snd (main w env h) = t1 ++ EvImport tok grp nm c :: t2 ->
  exists t0 tok_src grp_src rid response,
    t1 = t0 ++
         [EvExport tok_src grp_src rid;
          EvUpload (BUCKET_NAME env)
            (fstr (BUCKET_DESTINATION_DIRECTORY env) +:+ "/" +:+ nm
               +:+ ".pbix") c;
          EvPrint (MsgUploaded nm
                     (fstr (BUCKET_DESTINATION_DIRECTORY env) +:+ "/" +:+ nm
                        +:+ ".pbix"))] /\
    get_export w (h ++ t0) tok_src grp_src rid = Ok response /\
    content response = c /\
    upload_from_string w (h ++ t0 ++ [EvExport tok_src grp_src rid])
      (BUCKET_NAME env)
      (fstr (BUCKET_DESTINATION_DIRECTORY env) +:+ "/" +:+ nm +:+ ".pbix") c
    = Ok tt.
Proof. intros Htr. exact (main_archive_first w env h _ _ _ _ _ _ Htr). Qed.

(** ** These theorems at the fixtures *)

Lemma returned_list_records_the_imports_witness :
  exists added,
    [mkReport "30" "Report 3"; mkReport "4" "Report 4"]
    = [mkReport "30" "Report 3"] ++ added /\
    added `sublist_of` fx_source fx_skips /\
    imported_names
      (snd (migrate_reports (fixture_world fx_skips) test_env
              "fake_token_vgm" (Some "source_workspace_id") "fake_token_ft"
              (Some "target_workspace_id") (by_name (fx_destination fx_skips))
              (fx_source fx_skips) (fx_destination fx_skips) []))
    = List.map name added.
Proof.
  apply (returned_list_records_the_imports (fixture_world fx_skips) test_env
           "fake_token_vgm" (Some "source_workspace_id") "fake_token_ft"
           (Some "target_workspace_id") (by_name (fx_destination fx_skips))
           (fx_source fx_skips) (fx_destination fx_skips)
           [mkReport "30" "Report 3"; mkReport "4" "Report 4"] []).
  vm_compute. reflexivity.
Defined.

Lemma every_export_passed_both_guards_witness :
  exists report ignore_reports,
    report ∈ fx_source fx_skips /\ "4" = id report /\
    "fake_token_vgm" = "fake_token_vgm" /\
    "source_workspace_id" = fstr (Some "source_workspace_id") /\
    IGNORE_REPORTS test_env = Some ignore_reports /\
    str_in (name report) ignore_reports = false /\
    by_name (fx_destination fx_skips) !! name report = None.
Proof.
  apply (every_export_passed_both_guards (fixture_world fx_skips) test_env
           "fake_token_vgm" (Some "source_workspace_id") "fake_token_ft"
           (Some "target_workspace_id") (by_name (fx_destination fx_skips))
           (fx_source fx_skips) (fx_destination fx_skips) []).
  vm_compute. repeat (first [left; reflexivity | right]).
Defined.

Lemma store_failure_ends_the_run_witness :
  migrate_reports
    (with_store (Raise storage_unavailable)
       (fixture_world fx_duplicate_names))
    test_env "fake_token_vgm" (Some "source_workspace_id") "fake_token_ft"
    (Some "target_workspace_id") (by_name [])
    [mkReport "1" "Report 1"; mkReport "2" "Report 1"] [] []
  = (Raise storage_unavailable,
     [EvPrint (MsgStarted "Report 1"); EvPrint (MsgReportId "1");
      EvExport "fake_token_vgm" "source_workspace_id" "1";
      EvUpload (Some "fake_bucket") "fake_directory/Report 1.pbix"
        fake_report_content]).
Proof.
  apply (store_failure_ends_the_run
           (with_store (Raise storage_unavailable)
              (fixture_world fx_duplicate_names))
           test_env "fake_token_vgm" (Some "source_workspace_id")
           "fake_token_ft" (Some "target_workspace_id") (by_name [])
           (ignore_config ["ignore_report_1"; "ignore_report_2"])
           (mkReport "1" "Report 1") [mkReport "2" "Report 1"] [] []
           (mkResponse 200%Z fake_report_content) storage_unavailable);
    reflexivity.
Defined.

Lemma unset_ignore_list_ends_the_run_witness :
  migrate_reports (fixture_world fx_duplicate_names) env_without_ignore
    "fake_token_vgm" (Some "source_workspace_id") "fake_token_ft"
    (Some "target_workspace_id") (by_name [])
    [mkReport "1" "Report 1"; mkReport "2" "Report 1"] [] []
  = (Raise (TypeError "argument of type 'NoneType' is not iterable"), []).
Proof.
  apply (unset_ignore_list_ends_the_run (fixture_world fx_duplicate_names)
           env_without_ignore).
  reflexivity.
Defined.

Lemma empty_name_is_always_ignored_witness :
  migrate_reports (fixture_world fx_duplicate_names) test_env
    "fake_token_vgm" (Some "source_workspace_id") "fake_token_ft"
    (Some "target_workspace_id") (by_name [])
    [mkReport "7" ""; mkReport "2" "Report 1"] [] []
  = migrate_reports (fixture_world fx_duplicate_names) test_env
      "fake_token_vgm" (Some "source_workspace_id") "fake_token_ft"
      (Some "target_workspace_id") (by_name []) [mkReport "2" "Report 1"] []
      [].
Proof.
  apply (empty_name_is_always_ignored (fixture_world fx_duplicate_names)
           test_env "fake_token_vgm" (Some "source_workspace_id")
           "fake_token_ft" (Some "target_workspace_id") (by_name [])
           (ignore_config ["ignore_report_1"; "ignore_report_2"])
           (mkReport "7" "")); reflexivity.
Defined.

Lemma by_name_last_wins_witness :
  by_name [mkReport "1" "Report 1"; mkReport "2" "Report 1";
           mkReport "3" "Report 3"] !! "Report 1"
  = Some (mkReport "2" "Report 1")
  /\
  by_name [mkReport "1" "Report 1"; mkReport "2" "Report 1";
           mkReport "3" "Report 3"] !! "report 1"
  = None.
Proof.
  split.
  - apply (proj1 (by_name_last_wins
                    [mkReport "1" "Report 1"; mkReport "2" "Report 1";
                     mkReport "3" "Report 3"])
             [mkReport "1" "Report 1"] (mkReport "2" "Report 1")
             [mkReport "3" "Report 3"] eq_refl).
    intros y Hy. apply list_elem_of_In in Hy. simpl in Hy.
    destruct Hy as [<-|[]]. simpl. discriminate.
  - apply (proj2 (by_name_last_wins
                    [mkReport "1" "Report 1"; mkReport "2" "Report 1";
                     mkReport "3" "Report 3"])).
    intros y Hy. apply list_elem_of_In in Hy. simpl in Hy.
    destruct Hy as [<-|[<-|[<-|[]]]]; simpl; discriminate.
Defined.

Lemma destination_blob_name_inj_witness :
  destination_blob_name test_env "Report 1"
  <> destination_blob_name test_env "Report 2".
Proof.
  apply (destination_blob_name_inj test_env "Report 1" "Report 2").
  discriminate.
Defined.

Lemma secret_failure_ends_the_run_witness :
  main (with_secret (Raise secret_denied) (fixture_world fx_duplicate_names))
    test_env []
  = (Raise secret_denied, [EvSecret secret_resource_of_test])
  /\
  main (with_json_loads (Raise (ServiceError "JSONDecodeError"))
          (fixture_world fx_duplicate_names))
    test_env []
  = (Raise (ServiceError "JSONDecodeError"),
     [EvSecret secret_resource_of_test]).
Proof.
  split.
  - apply (proj1 (secret_failure_ends_the_run
                    (with_secret (Raise secret_denied)
                       (fixture_world fx_duplicate_names))
                    test_env [] secret_denied)).
    reflexivity.
  - apply (proj2 (secret_failure_ends_the_run
                    (with_json_loads (Raise (ServiceError "JSONDecodeError"))
                       (fixture_world fx_duplicate_names))
                    test_env [] (ServiceError "JSONDecodeError"))
             "fake_secret_blob"); reflexivity.
Defined.

Lemma authentication_failure_ends_the_run_witness :
  main (with_token (Ok token_refused) (fixture_world fx_duplicate_names))
    test_env []
  = (Raise (HTTPError 401),
     [EvSecret secret_resource_of_test; EvToken (fake_tenant "vgm");
      EvPrint MsgTokenFailed; EvPrint (MsgStatusCode 401);
      EvPrint (MsgResponseContent "unauthorized")])
  /\
  main (with_token (Ok token_refused_binary)
          (fixture_world fx_duplicate_names))
    test_env []
  = (Raise (DecodeError "invalid start byte"),
     [EvSecret secret_resource_of_test; EvToken (fake_tenant "vgm");
      EvPrint MsgTokenFailed; EvPrint (MsgStatusCode 401)]).
Proof.
  split.
  - apply (proj1 (authentication_failure_ends_the_run
                    (with_token (Ok token_refused)
                       (fixture_world fx_duplicate_names))
                    test_env [] "fake_secret_blob" fake_secrets eq_refl
                    eq_refl token_refused eq_refl eq_refl)).
    reflexivity.
  - apply (proj2 (authentication_failure_ends_the_run
                    (with_token (Ok token_refused_binary)
                       (fixture_world fx_duplicate_names))
                    test_env [] "fake_secret_blob" fake_secrets eq_refl
                    eq_refl token_refused_binary eq_refl eq_refl)).
    reflexivity.
Defined.

Lemma workspace_listing_error_ends_the_run_witness :
  main (with_groups (Ok groups_refused) (fixture_world fx_duplicate_names))
    test_env []
  = (Raise (HTTPError 403),
     [EvSecret secret_resource_of_test] ++ [EvToken (fake_tenant "vgm")] ++
     [EvGroups "fake_token_vgm"]).
Proof.
  apply (workspace_listing_error_ends_the_run
           (with_groups (Ok groups_refused) (fixture_world fx_duplicate_names))
           test_env [] "fake_secret_blob" fake_secrets eq_refl eq_refl
           "fake_token_vgm" [EvToken (fake_tenant "vgm")] eq_refl
           groups_refused); reflexivity.
Defined.

Lemma missing_workspace_is_queried_as_None_witness :
  exists tr,
    snd (main (fixture_world fx_missing_workspace) test_env [])
    = [EvSecret secret_resource_of_test] ++ [EvToken (fake_tenant "vgm")] ++
      [EvGroups "fake_token_vgm"; EvReports "fake_token_vgm" "None"] ++ tr.
Proof.
  apply (missing_workspace_is_queried_as_None
           (fixture_world fx_missing_workspace)
           test_env [] "fake_secret_blob" fake_secrets eq_refl eq_refl
           "fake_token_vgm" [EvToken (fake_tenant "vgm")] eq_refl
           (mkResponse 200%Z (groups_body (fx_groups fx_missing_workspace)))
           (fx_groups fx_missing_workspace) eq_refl eq_refl eq_refl).
  intros y Hy. apply list_elem_of_In in Hy. simpl in Hy.
  destruct Hy as [<-|[]]. simpl. discriminate.
Defined.

Lemma main_import_follows_archive_witness :
  exists t0 tok_src grp_src rid response,
    [EvSecret secret_resource_of_test; EvToken (fake_tenant "vgm");
     EvGroups "fake_token_vgm";
     EvReports "fake_token_vgm" "source_workspace_id";
     EvPrint (MsgSourceCount "fake_workspace" 2);
     EvToken (fake_tenant "ft"); EvGroups "fake_token_ft";
     EvReports "fake_token_ft" "target_workspace_id";
     EvPrint (MsgDestCount "fake_workspace" 0);
     EvPrint (MsgStarted "Report 1"); EvPrint (MsgReportId "1");
     EvExport "fake_token_vgm" "source_workspace_id" "1";
     EvUpload (Some "fake_bucket") "fake_directory/Report 1.pbix"
       fake_report_content;
     EvPrint (MsgUploaded "Report 1" "fake_directory/Report 1.pbix")]
    = t0 ++
      [EvExport tok_src grp_src rid;
       EvUpload (Some "fake_bucket") "fake_directory/Report 1.pbix"
         fake_report_content;
       EvPrint (MsgUploaded "Report 1" "fake_directory/Report 1.pbix")] /\
    get_export (fixture_world fx_duplicate_names) ([] ++ t0) tok_src grp_src
      rid = Ok response /\
    content response = fake_report_content /\
    upload_from_string (fixture_world fx_duplicate_names)
      ([] ++ t0 ++ [EvExport tok_src grp_src rid]) (Some "fake_bucket")
      "fake_directory/Report 1.pbix" fake_report_content
    = Ok tt.
Proof.
  apply (main_import_follows_archive (fixture_world fx_duplicate_names)
           test_env []
           [EvSecret secret_resource_of_test; EvToken (fake_tenant "vgm");
            EvGroups "fake_token_vgm";
            EvReports "fake_token_vgm" "source_workspace_id";
            EvPrint (MsgSourceCount "fake_workspace" 2);
            EvToken (fake_tenant "ft"); EvGroups "fake_token_ft";
            EvReports "fake_token_ft" "target_workspace_id";
            EvPrint (MsgDestCount "fake_workspace" 0);
            EvPrint (MsgStarted "Report 1"); EvPrint (MsgReportId "1");
            EvExport "fake_token_vgm" "source_workspace_id" "1";
            EvUpload (Some "fake_bucket") "fake_directory/Report 1.pbix"
              fake_report_content;
            EvPrint (MsgUploaded "Report 1" "fake_directory/Report 1.pbix")]
           [EvPrint (MsgSuccessful (Some fake_import_descriptor));
            EvPrint MsgTook;
            EvPrint (MsgStarted "Report 1"); EvPrint (MsgReportId "2");
            EvExport "fake_token_vgm" "source_workspace_id" "2";
            EvUpload (Some "fake_bucket") "fake_directory/Report 1.pbix"
              fake_report_content;
            EvPrint (MsgUploaded "Report 1" "fake_directory/Report 1.pbix");
            EvImport "fake_token_ft" "target_workspace_id" "Report 1"
              fake_report_content;
            EvPrint (MsgSuccessful (Some fake_import_descriptor));
            EvPrint MsgTook]
           "fake_token_ft" "target_workspace_id" "Report 1"
           fake_report_content).
  vm_compute. reflexivity.
Defined.

Lemma migrated_catalog_is_left_alone_witness :
  migrate_reports (fixture_world fx_skips) test_env "fake_token_vgm"
    (Some "source_workspace_id") "fake_token_ft" (Some "target_workspace_id")
    (by_name [mkReport "30" "Report 3"])
    [mkReport "3" "Report 3"; mkReport "1" "ignore_report_1"]
    [mkReport "30" "Report 3"] []
  = (Ok [mkReport "30" "Report 3"],
     flat_map
       (fun report =>
          if str_in (name report)
               (ignore_config ["ignore_report_1"; "ignore_report_2"])
          then []
          else [EvPrint (MsgAlreadyExists (name report))])
       [mkReport "3" "Report 3"; mkReport "1" "ignore_report_1"]).
Proof.
  apply (migrated_catalog_is_left_alone (fixture_world fx_skips) test_env
           "fake_token_vgm" (Some "source_workspace_id") "fake_token_ft"
           (Some "target_workspace_id") (by_name [mkReport "30" "Report 3"])
           (ignore_config ["ignore_report_1"; "ignore_report_2"])).
  - reflexivity.
  - intros report Hr. apply list_elem_of_In in Hr. simpl in Hr.
    destruct Hr as [<-|[<-|[]]].
    + right. vm_compute. eauto.
    + left. reflexivity.
Defined.

Lemma unset_workspace_name_finds_nothing_witness :
  get_workspace (fixture_world fx_duplicate_workspaces) "fake_token_vgm" None
    []
  = (Ok None, [EvGroups "fake_token_vgm"]).
Proof.
  apply (unset_workspace_name_finds_nothing
           (fixture_world fx_duplicate_workspaces) "fake_token_vgm" []
           (mkResponse 200%Z (groups_body (fx_groups fx_duplicate_workspaces)))
           (fx_groups fx_duplicate_workspaces));
    reflexivity.
Defined.
